(** * Prompt construction for the web-navigation agent

    A shallow embedding of [agent/prompts/prompt_constructor.py]: the URL
    mapper, the action extractor and the history-carrying
    [ReactPromptConstructor] (transcript, token budget, truncation).

    Conventions of the embedding.
    - A Python [str] is a list of characters ([str]); [len] is [length],
      [+] is [++], [s[n:]] is [skipn n s].
    - Token counts are Python floats of the form [len(text)/4] and sums of
      such; they are multiples of a quarter far below 2^53, on which float
      arithmetic is exact, and are modelled as rationals ([Q]).
    - A method of the constructor is a function from the object's state to
      an outcome and the state it leaves behind ([M]); a raised exception
      keeps the mutations done before it.
    - [print] calls are not modelled. *)

From Stdlib Require Import String Ascii.
From Stdlib Require Import Bool Arith Lia ZArith QArith Lqa List.
Import ListNotations.
Local Open Scope nat_scope.
Local Open Scope list_scope.

(* ================================================================== *)
(** * Python strings *)
(* ================================================================== *)

Definition str := list ascii.

Definition py (s : string) : str := list_ascii_of_string s.
Arguments py s%_string.

Definition newline : ascii := ascii_of_nat 10.

Fixpoint str_eqb (a b : str) : bool :=
  match a, b with
  | [], [] => true
  | x :: a', y :: b' => Ascii.eqb x y && str_eqb a' b'
  | _, _ => false
  end.

(** [s.startswith(p)] *)
Fixpoint str_startswith (p s : str) : bool :=
  match p, s with
  | [], _ => true
  | _ :: _, [] => false
  | x :: p', y :: s' => Ascii.eqb x y && str_startswith p' s'
  end.

(** [sub in s] *)
Fixpoint str_in (sub s : str) : bool :=
  if str_startswith sub s then true
  else match s with
       | [] => false
       | _ :: s' => str_in sub s'
       end.

(** [s.find(sub)], with [None] for Python's -1. *)
Fixpoint str_find (sub s : str) : option nat :=
  if str_startswith sub s then Some 0
  else match s with
       | [] => None
       | _ :: s' => option_map S (str_find sub s')
       end.

(** [s.replace("", new)]: [new] before every character and at the end. *)
Fixpoint replace_empty (new s : str) : str :=
  match s with
  | [] => new
  | c :: s' => new ++ c :: replace_empty new s'
  end.

(** [s.replace(old, new)] for a non-empty [old]: a left-to-right scan that
    rewrites every non-overlapping occurrence; [skip] counts the characters
    of the occurrence just rewritten that are still to be passed over. *)
Fixpoint replace_scan (old new s : str) (skip : nat) : str :=
  match s with
  | [] => []
  | c :: s' =>
      match skip with
      | S k => replace_scan old new s' k
      | O => if str_startswith old s
             then new ++ replace_scan old new s' (length old - 1)
             else c :: replace_scan old new s' 0
      end
  end.

Definition str_replace (old new s : str) : str :=
  match old with
  | [] => replace_empty new s
  | _ :: _ => replace_scan old new s 0
  end.

(** [s[-1]] on a list, [None] when Python raises IndexError. *)
Definition last_opt {A : Type} (l : list A) : option A :=
  match rev l with
  | [] => None
  | x :: _ => Some x
  end.

(* ================================================================== *)
(** * Outcomes, exceptions and the state monad of a constructor *)
(* ================================================================== *)

Inductive exn :=
| IndexError
| KeyError
| TypeError
| ValueError
| UnboundLocalError
| NotImplementedError
| AssertionError
| ActionParsingError (msg : str)
| OutsideFragment.

Inductive res (A : Type) :=
| Ok (a : A)
| Raise (e : exn).
Arguments Ok {A} a.
Arguments Raise {A} e.

Definition res_bind {A B : Type} (r : res A) (k : A -> res B) : res B :=
  match r with
  | Ok a => k a
  | Raise e => Raise e
  end.

(** What a Python procedure hands back. *)
Inductive pyval :=
| PyNone
| PyBool (b : bool).

Definition M (S A : Type) : Type := S -> res A * S.

Definition ret {S A : Type} (a : A) : M S A := fun s => (Ok a, s).
Definition raise {S A : Type} (e : exn) : M S A := fun s => (Raise e, s).
Definition bind {S A B : Type} (m : M S A) (k : A -> M S B) : M S B :=
  fun s => match m s with
           | (Ok a, s') => k a s'
           | (Raise e, s') => (Raise e, s')
           end.
Definition get {S : Type} : M S S := fun s => (Ok s, s).
Definition modify {S : Type} (f : S -> S) : M S unit := fun s => (Ok tt, f s).
Definition lift {S A : Type} (r : res A) : M S A := fun s => (r, s).

Declare Scope py_scope.
Delimit Scope py_scope with py_m.
Notation "x <- m ;; k" := (bind m (fun x => k))
  (at level 61, m at next level, right associativity) : py_scope.
Notation "m ;;; k" := (bind m (fun _ => k))
  (at level 61, right associativity) : py_scope.
Notation "x <-r m ;; k" := (res_bind m (fun x => k))
  (at level 61, m at next level, right associativity) : py_scope.

(* ================================================================== *)
(** * Data model *)
(* ================================================================== *)

(** A chat message: the dict [{"role": ..., "content": ...}], with the
    optional ["name"] key of the few-shot examples. *)
Record message := {
  role : str;
  name : option str;
  content : str
}.

(** [APIInput]: a text block or a list of messages. *)
Inductive api_input :=
| Text (s : str)
| Messages (l : list message).

Record MetaData := {
  keywords : list str;
  answer_phrase_md : str;
  action_splitter : str
}.

Record Instruction := {
  intro : str;
  examples : list (str * str);
  template : str;
  meta_data : MetaData
}.

Record GenConfig := {
  max_tokens : Z;
  context_length : Z;
  max_obs_length : nat
}.

Record LMConfig := {
  provider : str;
  mode : str;
  gen_config : GenConfig
}.

(** The tiktoken encoding handed to the constructor. *)
Record Tokenizer := {
  encode : str -> list nat;
  decode : list nat -> str
}.

(** Fields of the base class [PromptConstructor]. *)
Record PromptConstructor := {
  instruction : Instruction;
  lm_config : LMConfig;
  tokenizer : Tokenizer
}.

(** Fields added by [ReactPromptConstructor.__init__]. *)
Record ReactPromptConstructor := {
  base : PromptConstructor;
  answer_phrase : str;
  sys_prompt : api_input;
  sys_tokens : Q;
  messages : list message;
  messages_tokens_list : list Q;
  messages_token_sum : Q;
  intent : api_input;
  intent_tokens : Q;
  msg_start_idx : nat
}.

(** The last state of a trajectory, reduced to what the constructor reads:
    [state_info["observation"]["text"]] and [state_info["info"]["page"].url]. *)
Record StateInfo := {
  observation_text : str;
  page_url : str
}.

(* ================================================================== *)
(** * [str.format] *)
(* ================================================================== *)

Definition dict_get (k : str) (d : list (str * str)) : option str :=
  option_map snd (find (fun e => str_eqb (fst e) k) d).

Definition is_digit (c : ascii) : bool :=
  let n := nat_of_ascii c in (48 <=? n) && (n <=? 57).

Definition in_chars (c : ascii) (cs : str) : bool :=
  existsb (Ascii.eqb c) cs.

(** The replacement of one field [{field}] of a format string that is
    called with keyword arguments only.  An empty or numeric field refers to
    a positional argument, of which there are none.  Conversions ([!r]),
    format specifications ([:>8]) and attribute or index access ([a.b],
    [a[0]]) are outside the fragment that is modelled. *)
Definition format_field (kwargs : list (str * str)) (field : str) : res str :=
  if existsb (fun c => in_chars c (py "!:.[")) field then Raise OutsideFragment
  else if forallb is_digit field then Raise IndexError
  else match dict_get field kwargs with
       | Some v => Ok v
       | None => Raise KeyError
       end.

(** [s.format] with keyword arguments: [{{] and [}}] are escaped braces, [{field}] is
    replaced; [field] is [Some acc] while the scan is inside a field.  An
    opening brace inside a field is an error, unless the field has already
    left the modelled fragment (a nested specification or an index). *)
Fixpoint format_scan (kwargs : list (str * str)) (s : str)
                     (field : option str) : res str :=
  match field, s with
  | None, [] => Ok []
  | Some _, [] => Raise ValueError
  | None, c :: s' =>
      if Ascii.eqb c "{"%char then
        match s' with
        | c' :: s'' =>
            if Ascii.eqb c' "{"%char
            then res_bind (format_scan kwargs s'' None)
                          (fun r => Ok ("{"%char :: r))
            else format_scan kwargs s' (Some [])
        | [] => Raise ValueError
        end
      else if Ascii.eqb c "}"%char then
        match s' with
        | c' :: s'' =>
            if Ascii.eqb c' "}"%char
            then res_bind (format_scan kwargs s'' None)
                          (fun r => Ok ("}"%char :: r))
            else Raise ValueError
        | [] => Raise ValueError
        end
      else res_bind (format_scan kwargs s' None) (fun r => Ok (c :: r))
  | Some acc, c :: s' =>
      if Ascii.eqb c "}"%char then
        res_bind (format_field kwargs acc)
                 (fun v => res_bind (format_scan kwargs s' None)
                                    (fun r => Ok (v ++ r)))
      else if Ascii.eqb c "{"%char then
        if existsb (fun c => in_chars c (py "!:.[")) acc
        then Raise OutsideFragment
        else Raise ValueError
      else format_scan kwargs s' (Some (acc ++ [c]))
  end.

Definition str_format (template : str) (kwargs : list (str * str)) : res str :=
  format_scan kwargs template None.

(* ================================================================== *)
(** * The regular-expression search of the action extractor *)
(* ================================================================== *)

(** [re.search(rf"{d}(.*?){d}", s)] for a delimiter [d] that the regular
    expression reads literally, which is what [literal_delimiter] below
    says of [d]: the source puts the delimiter into the pattern unescaped,
    so a delimiter with a metacharacter is another pattern, outside of what
    is modelled here; the configured delimiter is the backtick.
    [lazy_group d s] is the lazy group followed by the closing delimiter,
    tried on the text after the opening one: the shortest run of characters
    other than the newline (the dot does not match it) after which [d]
    stands. *)
Fixpoint lazy_group (d s : str) : option str :=
  if str_startswith d s then Some []
  else match s with
       | [] => None
       | c :: s' =>
           if Ascii.eqb c newline then None
           else option_map (cons c) (lazy_group d s')
       end.

(** The search itself: the leftmost start at which the whole pattern
    matches; the result is group 1. *)
Fixpoint re_search (d s : str) : option str :=
  match (if str_startswith d s
         then lazy_group d (skipn (length d) s)
         else None) with
  | Some g => Some g
  | None => match s with
            | [] => None
            | _ :: s' => re_search d s'
            end
  end.

(* ================================================================== *)
(** * PromptConstructor: URL mapper and action extractor *)
(* ================================================================== *)

Definition dquote : ascii := ascii_of_nat 34.

Section WithUrlMappings.

(** [browser_env.env_config.URL_MAPPINGS], a dict from local to real URL
    prefixes, in insertion order. *)
Variable URL_MAPPINGS : list (str * str).

(** for i, j in URL_MAPPINGS.items(): if i in url: url = url.replace(i, j) *)
Definition map_url_to_real (url : str) : str :=
  fold_left (fun url e => let '(i, j) := e in
                          if str_in i url then str_replace i j url else url)
            URL_MAPPINGS url.

(** for i, j in URL_MAPPINGS.items(): if j in url: url = url.replace(j, i) *)
Definition map_url_to_local (url : str) : str :=
  fold_left (fun url e => let '(i, j) := e in
                          if str_in j url then str_replace j i url else url)
            URL_MAPPINGS url.

(** [ReactPromptConstructor._extract_action] *)
Definition _extract_action (self : ReactPromptConstructor) (response : str)
  : res str :=
  let action_splitter := action_splitter (meta_data (instruction (base self))) in
  match re_search action_splitter response with
  | Some group1 => Ok group1
  | None =>
      Raise (ActionParsingError
               (py "Cannot find the answer phrase " ++ [dquote] ++
                answer_phrase self ++ [dquote] ++ py " in " ++ [dquote] ++
                response ++ [dquote]))
  end.

(** [PromptConstructor.extract_action], dispatching to the method above. *)
Definition extract_action (self : ReactPromptConstructor) (response : str)
  : res str :=
  res_bind (_extract_action self response)
           (fun response => Ok (map_url_to_local response)).

End WithUrlMappings.

(* ================================================================== *)
(** * ReactPromptConstructor *)
(* ================================================================== *)

Definition set_messages (self : ReactPromptConstructor) (v : list message) :=
  {| base := base self; answer_phrase := answer_phrase self;
     sys_prompt := sys_prompt self; sys_tokens := sys_tokens self;
     messages := v;
     messages_tokens_list := messages_tokens_list self;
     messages_token_sum := messages_token_sum self;
     intent := intent self; intent_tokens := intent_tokens self;
     msg_start_idx := msg_start_idx self |}.

Definition set_messages_tokens_list (self : ReactPromptConstructor) (v : list Q) :=
  {| base := base self; answer_phrase := answer_phrase self;
     sys_prompt := sys_prompt self; sys_tokens := sys_tokens self;
     messages := messages self;
     messages_tokens_list := v;
     messages_token_sum := messages_token_sum self;
     intent := intent self; intent_tokens := intent_tokens self;
     msg_start_idx := msg_start_idx self |}.

Definition set_messages_token_sum (self : ReactPromptConstructor) (v : Q) :=
  {| base := base self; answer_phrase := answer_phrase self;
     sys_prompt := sys_prompt self; sys_tokens := sys_tokens self;
     messages := messages self;
     messages_tokens_list := messages_tokens_list self;
     messages_token_sum := v;
     intent := intent self; intent_tokens := intent_tokens self;
     msg_start_idx := msg_start_idx self |}.

Definition set_msg_start_idx (self : ReactPromptConstructor) (v : nat) :=
  {| base := base self; answer_phrase := answer_phrase self;
     sys_prompt := sys_prompt self; sys_tokens := sys_tokens self;
     messages := messages self;
     messages_tokens_list := messages_tokens_list self;
     messages_token_sum := messages_token_sum self;
     intent := intent self; intent_tokens := intent_tokens self;
     msg_start_idx := v |}.

(** The agent assigns [intent] and [intent_tokens] from outside. *)
Definition set_intent (self : ReactPromptConstructor) (v : api_input) (t : Q) :=
  {| base := base self; answer_phrase := answer_phrase self;
     sys_prompt := sys_prompt self; sys_tokens := sys_tokens self;
     messages := messages self;
     messages_tokens_list := messages_tokens_list self;
     messages_token_sum := messages_token_sum self;
     intent := v; intent_tokens := t;
     msg_start_idx := msg_start_idx self |}.

Definition gen (self : ReactPromptConstructor) : GenConfig :=
  gen_config (lm_config (base self)).

(** [len(msg) / 4] *)
Definition msg_tokens (msg : str) : Q :=
  (inject_Z (Z.of_nat (length msg)) / 4)%Q.

Definition example_messages (exs : list (str * str)) : list message :=
  flat_map (fun e =>
              [ {| role := py "system"; name := Some (py "example_user");
                   content := fst e |};
                {| role := py "system"; name := Some (py "example_assistant");
                   content := snd e |} ]) exs.

Definition example_text (exs : list (str * str)) : str :=
  flat_map (fun e =>
              py "Observation" ++ [newline] ++ py ":" ++ fst e ++
              [newline; newline] ++
              py "Action: " ++ snd e ++ [newline; newline]) exs.

(** [get_lm_api_initialize] *)
Definition get_lm_api_initialize (b : PromptConstructor) : res api_input :=
  if str_in (py "openai") (provider (lm_config b)) then
    if str_eqb (mode (lm_config b)) (py "chat") then
      Ok (Messages ({| role := py "system"; name := None;
                       content := intro (instruction b) |}
                    :: example_messages (examples (instruction b))))
    else if str_eqb (mode (lm_config b)) (py "completion") then
      Ok (Text (intro (instruction b) ++ [newline; newline] ++
                py "Here are a few examples:" ++ [newline] ++
                example_text (examples (instruction b))))
    else Raise ValueError
  else Raise NotImplementedError.

(** [sum([len(msg['content']) for msg in sys_prompt]) / 4]: iterating a
    text block yields characters, and indexing a character by a key is a
    TypeError. *)
Definition count_sys_tokens (p : api_input) : res Q :=
  match p with
  | Messages l =>
      Ok (inject_Z (Z.of_nat (list_sum (map (fun m => length (content m)) l))) / 4)%Q
  | Text [] => Ok (0 / 4)%Q
  | Text (_ :: _) => Raise TypeError
  end.

(** [ReactPromptConstructor.__init__] *)
Definition react_init (b : PromptConstructor) : res ReactPromptConstructor :=
  res_bind (get_lm_api_initialize b) (fun sp =>
  res_bind (count_sys_tokens sp) (fun st =>
  Ok {| base := b;
        answer_phrase := answer_phrase_md (meta_data (instruction b));
        sys_prompt := sp; sys_tokens := st;
        messages := []; messages_tokens_list := [];
        messages_token_sum := 0;
        intent := Text []; intent_tokens := 0;
        msg_start_idx := 0 |})).

(** Reading a local variable that was only annotated, never bound. *)
Definition load_local {A : Type} (v : option A) : res A :=
  match v with
  | Some a => Ok a
  | None => Raise UnboundLocalError
  end.

(** [ReactPromptConstructor.get_lm_api_input]: in the completion branch
    the local [message] is extended in place before any assignment. *)
Definition get_lm_api_input (self : ReactPromptConstructor)
    (intro : str) (examples : list (str * str)) (current : str)
  : res api_input :=
  let message : option str := None in
  if str_in (py "openai") (provider (lm_config (base self))) then
    if str_eqb (mode (lm_config (base self))) (py "chat") then
      Ok (Messages [ {| role := py "user"; name := None; content := current |} ])
    else if str_eqb (mode (lm_config (base self))) (py "completion") then
      res_bind (load_local message) (fun m0 =>
      let m1 := m0 ++ py "Now make thoughts given the observation" ++
                [newline; newline] in
      let m2 := m1 ++ py "Observation" ++ [newline] ++ py ":" ++ current ++
                [newline; newline] in
      let m3 := m2 ++ py "Thought:" in
      Ok (Text m3))
    else Raise ValueError
  else Raise NotImplementedError.

Local Open Scope py_scope.

(** [add_message(msg, role)] *)
Definition add_message (msg : str) (role : str)
  : M ReactPromptConstructor pyval :=
  modify (fun self => set_messages self
            (messages self ++ [ {| role := role; name := None; content := msg |} ])) ;;;
  let msg_tokens := msg_tokens msg in
  modify (fun self => set_messages_tokens_list self
            (messages_tokens_list self ++ [msg_tokens])) ;;;
  modify (fun self => set_messages_token_sum self
            (messages_token_sum self + msg_tokens)%Q) ;;;
  ret PyNone.

(** [list.pop()] on the cost list. *)
Definition pop_tokens : M ReactPromptConstructor Q :=
  self <- get ;;
  match last_opt (messages_tokens_list self) with
  | None => raise IndexError
  | Some c =>
      modify (fun self => set_messages_tokens_list self
                (removelast (messages_tokens_list self))) ;;;
      ret c
  end.

(** [remove_obs()]: the function has no [return] statement. *)
Definition remove_obs : M ReactPromptConstructor pyval :=
  self <- get ;;
  match last_opt (messages self) with
  | None => raise IndexError
  | Some prev_msg =>
      if str_eqb (role prev_msg) (py "user")
         && str_startswith (py "OBSERVATION:") (content prev_msg)
      then
        modify (fun self => set_messages self (removelast (messages self))) ;;;
        _ <- pop_tokens ;;
        modify (fun self => set_messages_token_sum self
                  (messages_token_sum self - msg_tokens (content prev_msg))%Q) ;;;
        ret PyNone
      else ret PyNone
  end.

(** [sys_tokens + intent_tokens + messages_token_sum + gen_config["max_tokens"]] *)
Definition tot_tokens (self : ReactPromptConstructor) : Q :=
  (sys_tokens self + intent_tokens self + messages_token_sum self
   + inject_Z (max_tokens (gen self)))%Q.

(** [tot_tokens > gen_config["context_length"]] *)
Definition over_context (self : ReactPromptConstructor) : bool :=
  negb (Qle_bool (tot_tokens self) (inject_Z (context_length (gen self)))).

(** The [while] loop of [get_limited_message_history]; [None] when [fuel]
    iterations were not enough to leave it. *)
Fixpoint truncate_loop (fuel : nat) (self : ReactPromptConstructor)
  : option (res unit * ReactPromptConstructor) :=
  if over_context self then
    match fuel with
    | O => None
    | S fuel' =>
        match nth_error (messages_tokens_list self) (msg_start_idx self) with
        | None => Some (Raise IndexError, self)
        | Some c =>
            let self := set_messages_token_sum self (messages_token_sum self - c)%Q in
            let self := set_msg_start_idx self (msg_start_idx self + 1) in
            truncate_loop fuel' self
        end
    end
  else Some (Ok tt, self).

(** [get_limited_message_history()] *)
Definition get_limited_message_history (fuel : nat) (self : ReactPromptConstructor)
  : option (res (list message) * ReactPromptConstructor) :=
  match truncate_loop fuel self with
  | None => None
  | Some (Raise e, self) => Some (Raise e, self)
  | Some (Ok _, self) => Some (Ok (skipn (msg_start_idx self) (messages self)), self)
  end.

(** Iterations that always suffice: one per cost still under the cursor,
    and the one that leaves the loop. *)
Definition enough_fuel (self : ReactPromptConstructor) : nat :=
  S (length (messages_tokens_list self) - msg_start_idx self).

(** [a + b] on payloads: list with list, text with text. *)
Definition api_add (a b : api_input) : res api_input :=
  match a, b with
  | Text s, Text t => Ok (Text (s ++ t))
  | Messages l, Messages k => Ok (Messages (l ++ k))
  | _, _ => Raise TypeError
  end.

(** [assert all([f"{{k}}" not in text for k in keywords])]: the doubled
    braces of the f-string are escapes, so the text tested for is the three
    characters [{k}] whatever the keyword is. *)
Definition assert_keywords (keywords : list str) (text : str) : res unit :=
  if forallb (fun k => negb (str_in (py "{k}") text)) keywords
  then Ok tt
  else Raise AssertionError.

Section ConstructThought.

Variable URL_MAPPINGS : list (str * str).

(** Lines 348-370 of [construct_thought]: the clipped observation and the
    formatted current turn, both passed through the keyword assertions.
    [action_history] is [meta_data["action_history"]], [None] when the key
    is missing. *)
Definition current_turn (self : ReactPromptConstructor)
    (trajectory : list StateInfo) (action_history : option (list str))
  : res (str * str) :=
  let template := template (instruction (base self)) in
  let keywords := keywords (meta_data (instruction (base self))) in
  state_info <-r match last_opt trajectory with
                 | Some x => Ok x
                 | None => Raise IndexError
                 end ;;
  let obs := observation_text state_info in
  let max_obs_length := max_obs_length (gen self) in
  let obs := match max_obs_length with
             | O => obs
             | S _ => decode (tokenizer (base self))
                        (firstn max_obs_length (encode (tokenizer (base self)) obs))
             end in
  let url := page_url state_info in
  history <-r match action_history with
              | Some h => Ok h
              | None => Raise KeyError
              end ;;
  previous_action_str <-r match last_opt history with
                          | Some x => Ok x
                          | None => Raise IndexError
                          end ;;
  let error_msg :=
    if str_startswith (py "Attempt to perfom") previous_action_str
       || str_startswith (py "The previous prediction you issued was")
                         previous_action_str
    then previous_action_str
    else py "None" in
  current <-r str_format template
                [ (py "url", map_url_to_real URL_MAPPINGS url);
                  (py "previous_action", map_url_to_real URL_MAPPINGS error_msg) ] ;;
  _ <-r assert_keywords keywords obs ;;
  _ <-r assert_keywords keywords current ;;
  Ok (current, obs).

(** [construct_thought(trajectory, intent, meta_data)].  The sum
    [sys_prompt + intent] is formed before the history is truncated. *)
Definition construct_thought (fuel : nat) (trajectory : list StateInfo)
    (intent_arg : str) (action_history : option (list str))
    (self : ReactPromptConstructor)
  : option (res api_input * ReactPromptConstructor) :=
  match current_turn self trajectory action_history with
  | Raise e => Some (Raise e, self)
  | Ok (current, obs) =>
      let self := snd (add_message current (py "user") self) in
      let self := snd (add_message (py "OBSERVATION: " ++ [newline] ++ obs)
                                   (py "user") self) in
      match api_add (sys_prompt self) (intent self) with
      | Raise e => Some (Raise e, self)
      | Ok prompt =>
          match get_limited_message_history fuel self with
          | None => None
          | Some (Raise e, self) => Some (Raise e, self)
          | Some (Ok history, self) => Some (api_add prompt (Messages history), self)
          end
      end
  end.

End ConstructThought.

Local Close Scope py_scope.

(* ================================================================== *)
(** * The single-shot constructors *)
(* ================================================================== *)

Local Open Scope py_scope.

Module Base.

(** [PromptConstructor.get_lm_api_input]: the whole prompt of one call,
    as a message list in chat mode and as one text in completion mode. *)
Definition get_lm_api_input (self : PromptConstructor)
    (intro : str) (examples : list (str * str)) (current : str)
  : res api_input :=
  if str_in (py "openai") (provider (lm_config self)) then
    if str_eqb (mode (lm_config self)) (py "chat") then
      Ok (Messages ({| role := py "system"; name := None; content := intro |}
                    :: example_messages examples
                    ++ [ {| role := py "user"; name := None; content := current |} ]))
    else if str_eqb (mode (lm_config self)) (py "completion") then
      Ok (Text (intro ++ [newline; newline] ++
                py "Here are a few examples:" ++ [newline] ++
                example_text examples ++
                py "Now make prediction given the observation" ++
                [newline; newline] ++
                py "Observation" ++ [newline] ++ py ":" ++ current ++
                [newline; newline] ++
                py "Action:"))
    else Raise ValueError
  else Raise NotImplementedError.

(** [PromptConstructor.construct] and [PromptConstructor._extract_action]
    are abstract. *)
Definition construct (self : PromptConstructor) (trajectory : list StateInfo)
    (intent : str) (action_history : option (list str)) : res api_input :=
  Raise NotImplementedError.

Definition _extract_action (self : PromptConstructor) (response : str) : res str :=
  Raise NotImplementedError.

End Base.

Module Direct.

Section WithUrlMappings.

Variable URL_MAPPINGS : list (str * str).

(** [DirectPromptConstructor.construct] *)
Definition construct (self : PromptConstructor) (trajectory : list StateInfo)
    (intent : str) (action_history : option (list str)) : res api_input :=
  let intro := intro (instruction self) in
  let examples := examples (instruction self) in
  let template := template (instruction self) in
  let keywords := keywords (meta_data (instruction self)) in
  state_info <-r match last_opt trajectory with
                 | Some x => Ok x
                 | None => Raise IndexError
                 end ;;
  let obs := observation_text state_info in
  let max_obs_length := max_obs_length (gen_config (lm_config self)) in
  let obs := match max_obs_length with
             | O => obs
             | S _ => decode (tokenizer self)
                        (firstn max_obs_length (encode (tokenizer self) obs))
             end in
  let url := page_url state_info in
  history <-r match action_history with
              | Some h => Ok h
              | None => Raise KeyError
              end ;;
  previous_action_str <-r match last_opt history with
                          | Some x => Ok x
                          | None => Raise IndexError
                          end ;;
  current <-r str_format template
                [ (py "objective", intent);
                  (py "url", map_url_to_real URL_MAPPINGS url);
                  (py "observation", obs);
                  (py "previous_action", previous_action_str) ] ;;
  _ <-r assert_keywords keywords current ;;
  Base.get_lm_api_input self intro examples current.

(** [DirectPromptConstructor._extract_action] *)
Definition _extract_action (self : PromptConstructor) (response : str) : res str :=
  let action_splitter := action_splitter (meta_data (instruction self)) in
  match re_search action_splitter response with
  | Some group1 => Ok group1
  | None =>
      Raise (ActionParsingError
               (py "Cannot parse action from response " ++ response))
  end.

(** The inherited [extract_action]. *)
Definition extract_action (self : PromptConstructor) (response : str) : res str :=
  response <-r _extract_action self response ;;
  Ok (map_url_to_local URL_MAPPINGS response).

End WithUrlMappings.

End Direct.

Module CoT.

Section WithUrlMappings.

Variable URL_MAPPINGS : list (str * str).

(** [CoTPromptConstructor.construct] *)
Definition construct (self : PromptConstructor) (trajectory : list StateInfo)
    (intent : str) (action_history : option (list str)) : res api_input :=
  let intro := intro (instruction self) in
  let examples := examples (instruction self) in
  let template := template (instruction self) in
  let keywords := keywords (meta_data (instruction self)) in
  state_info <-r match last_opt trajectory with
                 | Some x => Ok x
                 | None => Raise IndexError
                 end ;;
  let obs := observation_text state_info in
  let max_obs_length := max_obs_length (gen_config (lm_config self)) in
  let obs := match max_obs_length with
             | O => obs
             | S _ => decode (tokenizer self)
                        (firstn max_obs_length (encode (tokenizer self) obs))
             end in
  let url := page_url state_info in
  history <-r match action_history with
              | Some h => Ok h
              | None => Raise KeyError
              end ;;
  previous_action_str <-r match last_opt history with
                          | Some x => Ok x
                          | None => Raise IndexError
                          end ;;
  current <-r str_format template
                [ (py "objective", intent);
                  (py "url", map_url_to_real URL_MAPPINGS url);
                  (py "observation", obs);
                  (py "previous_action", previous_action_str) ] ;;
  _ <-r assert_keywords keywords current ;;
  Base.get_lm_api_input self intro examples current.

(** [CoTPromptConstructor._extract_action]; [answer_phrase] is read from
    the instruction's metadata by [__init__]. *)
Definition _extract_action (self : PromptConstructor) (response : str) : res str :=
  let answer_phrase := answer_phrase_md (meta_data (instruction self)) in
  let action_splitter := action_splitter (meta_data (instruction self)) in
  match re_search action_splitter response with
  | Some group1 => Ok group1
  | None =>
      Raise (ActionParsingError
               (py "Cannot find the answer phrase " ++ [dquote] ++
                answer_phrase ++ [dquote] ++ py " in " ++ [dquote] ++
                response ++ [dquote]))
  end.

(** The inherited [extract_action]. *)
Definition extract_action (self : PromptConstructor) (response : str) : res str :=
  response <-r _extract_action self response ;;
  Ok (map_url_to_local URL_MAPPINGS response).

End WithUrlMappings.

End CoT.

Local Close Scope py_scope.

(* ================================================================== *)
(** * Notions used to state the properties *)
(* ================================================================== *)

(** The two directions of the URL mapper, to state facts about both. *)
Inductive direction :=
| ToReal
| ToLocal.

Definition source_of (dir : direction) (e : str * str) : str :=
  match dir with
  | ToReal => fst e
  | ToLocal => snd e
  end.

Definition target_of (dir : direction) (e : str * str) : str :=
  match dir with
  | ToReal => snd e
  | ToLocal => fst e
  end.

Definition map_url (dir : direction) (table : list (str * str)) (url : str) : str :=
  match dir with
  | ToReal => map_url_to_real table url
  | ToLocal => map_url_to_local table url
  end.

(** First-match replacement as the specification words it: the first
    entry whose source occurs in the URL is applied and no further one. *)
Fixpoint first_match_replace (dir : direction) (table : list (str * str))
                             (url : str) : str :=
  match table with
  | [] => url
  | e :: rest =>
      if str_in (source_of dir e) url
      then str_replace (source_of dir e) (target_of dir e) url
      else first_match_replace dir rest url
  end.

(** A border of [j] of length [k]: a prefix of [j] that is also its suffix. *)
Definition border_at (j : str) (k : nat) : bool :=
  str_eqb (firstn k j) (skipn (length j - k) j).

(** [j] has a border that is neither empty nor [j] itself. *)
Definition has_border (j : str) : bool :=
  existsb (border_at j) (seq 1 (length j - 1)).

(** The characters that a regular expression does not read literally. *)
Definition regex_special : str := py ".^$*+?{}[]\|()".

(** A delimiter that stands for itself when it is put into a pattern. *)
Definition literal_delimiter (d : str) : bool :=
  forallb (fun c => negb (in_chars c regex_special)) d.

(** The text strictly between the first occurrence of [d] and its next
    occurrence after it, as the specification words the extraction. *)
Definition between_first_two (d s : str) : option str :=
  match str_find d s with
  | None => None
  | Some p =>
      let rest := skipn (p + length d) s in
      match str_find d rest with
      | None => None
      | Some q => Some (firstn q rest)
      end
  end.

Definition no_newline (s : str) : bool :=
  forallb (fun c => negb (Ascii.eqb c newline)) s.

Definition Qsum (l : list Q) : Q := fold_right Qplus 0%Q l.

(** A text without braces, which [str.format] copies as it is. *)
Definition brace_free (s : str) : bool :=
  forallb (fun c => negb (Ascii.eqb c "{"%char) && negb (Ascii.eqb c "}"%char)) s.

(** The error text that [construct_thought] puts into the turn: the
    previous action when it reports an error, and [None] otherwise. *)
Definition error_message (previous_action_str : str) : str :=
  if str_startswith (py "Attempt to perfom") previous_action_str
     || str_startswith (py "The previous prediction you issued was")
                       previous_action_str
  then previous_action_str
  else py "None".

(** The test of [remove_obs] on the last message. *)
Definition is_observation (m : message) : bool :=
  str_eqb (role m) (py "user") && str_startswith (py "OBSERVATION:") (content m).

(** The cost list is the list of the messages' costs, index by index. *)
Definition aligned (self : ReactPromptConstructor) : Prop :=
  messages_tokens_list self
  = map (fun m => msg_tokens (content m)) (messages self).

(** The transcript invariant: aligned lists, and a running sum that is the
    sum of the costs from the cursor onward. *)
Definition transcript_inv (self : ReactPromptConstructor) : Prop :=
  aligned self /\
  (messages_token_sum self
   == Qsum (skipn (msg_start_idx self) (messages_tokens_list self)))%Q.

(** The cursor is within the transcript. *)
Definition cursor_ok (self : ReactPromptConstructor) : Prop :=
  msg_start_idx self <= length (messages self).

(** The state after the loop has dropped [k] messages. *)
Definition after_drops (self : ReactPromptConstructor) (k : nat)
  : ReactPromptConstructor :=
  set_msg_start_idx
    (set_messages_token_sum self
       (fold_left Qminus
          (firstn k (skipn (msg_start_idx self) (messages_tokens_list self)))
          (messages_token_sum self)))
    (msg_start_idx self + k).

(** System prompt, objective and reply reserve. *)
Definition fixed_tokens (self : ReactPromptConstructor) : Q :=
  (sys_tokens self + intent_tokens self + inject_Z (max_tokens (gen self)))%Q.

Definition ceiling (self : ReactPromptConstructor) : Q :=
  inject_Z (context_length (gen self)).

(* ================================================================== *)
(** * Concrete objects for the examples *)
(* ================================================================== *)

(** [agent/prompts/raw/react.py]: the template and the metadata of the
    shipped instruction.  The introduction and the few-shot examples are
    long texts that no property depends on; they are parameters here. *)
Definition react_prompt (intro : str) (examples : list (str * str)) : Instruction :=
  {| intro := intro;
     examples := examples;
     template := [newline] ++ py "ERROR MESSAGE: {previous_action}" ++ [newline] ++
                 py "URL: {url}" ++ [newline];
     meta_data := {| keywords := [ py "url"; py "objective"; py "observation";
                                   py "previous_action" ];
                     answer_phrase_md := py "Action: ";
                     action_splitter := py "`" |} |}.

(** An OpenAI chat configuration with the given budget. *)
Definition chat_config (max_tokens context_length : Z) (max_obs_length : nat)
  : LMConfig :=
  {| provider := py "openai";
     mode := py "chat";
     gen_config := {| max_tokens := max_tokens;
                      context_length := context_length;
                      max_obs_length := max_obs_length |} |}.

(** A tokenizer with one token per character, in place of tiktoken. *)
Definition char_tokenizer : Tokenizer :=
  {| encode := map nat_of_ascii; decode := map ascii_of_nat |}.

(** A constructor as [__init__] leaves it, for the shipped instruction with
    the introduction [intro] and no few-shot example. *)
Definition fresh_react (intro : str) (cfg : LMConfig) : res ReactPromptConstructor :=
  react_init {| instruction := react_prompt intro [];
                lm_config := cfg;
                tokenizer := char_tokenizer |}.

(** The state [__init__] builds in chat mode, written out. *)
Definition chat_react (intro : str) (cfg : LMConfig) : ReactPromptConstructor :=
  {| base := {| instruction := react_prompt intro []; lm_config := cfg;
                tokenizer := char_tokenizer |};
     answer_phrase := py "Action: ";
     sys_prompt := Messages [ {| role := py "system"; name := None;
                                 content := intro |} ];
     sys_tokens := (inject_Z (Z.of_nat (length intro + 0)) / 4)%Q;
     messages := []; messages_tokens_list := []; messages_token_sum := 0;
     intent := Text []; intent_tokens := 0;
     msg_start_idx := 0 |}.

(** The objective as the agent stores it before the first step: one user
    message, and its cost. *)
Definition with_objective (objective : str) (self : ReactPromptConstructor)
  : ReactPromptConstructor :=
  set_intent self
    (Messages [ {| role := py "user"; name := None; content := objective |} ])
    (msg_tokens objective).

(* ================================================================== *)
(** * Facts about Python strings *)
(* ================================================================== *)

Lemma str_eqb_eq (a b : str) : str_eqb a b = true <-> a = b.
Proof.
  revert b; induction a as [|x a IH]; intros [|y b]; simpl;
    try (split; [discriminate | discriminate]); try tauto.
  rewrite andb_true_iff, Ascii.eqb_eq, IH.
  split; [intros [-> ->]; reflexivity | intros H; inversion H; auto].
Qed.

Lemma str_eqb_refl (a : str) : str_eqb a a = true.
Proof. apply str_eqb_eq; reflexivity. Qed.

Lemma str_startswith_app (p s : str) : str_startswith p (p ++ s) = true.
Proof.
  induction p as [|x p IH]; simpl; [reflexivity|].
  rewrite Ascii.eqb_refl; exact IH.
Qed.

Lemma str_startswith_split (p s : str) :
  str_startswith p s = true -> s = p ++ skipn (length p) s.
Proof.
  revert s; induction p as [|x p IH]; intros s H; simpl in *; [reflexivity|].
  destruct s as [|y s]; [discriminate|].
  apply andb_true_iff in H as [Hxy Hps].
  apply Ascii.eqb_eq in Hxy; subst y.
  f_equal; apply IH; exact Hps.
Qed.

Lemma str_startswith_length (p s : str) :
  str_startswith p s = true -> length p <= length s.
Proof.
  intros H; apply str_startswith_split in H.
  rewrite H, length_app; lia.
Qed.

(** A prefix of [x ++ y] no longer than [x] is a prefix of [x]. *)
Lemma str_startswith_app_short (p x y : str) :
  length p <= length x ->
  str_startswith p (x ++ y) = true -> str_startswith p x = true.
Proof.
  revert x; induction p as [|c p IH]; intros x Hlen H; simpl in *; [reflexivity|].
  destruct x as [|c' x]; simpl in *; [lia|].
  apply andb_true_iff in H as [-> H]; simpl.
  apply IH; [lia | exact H].
Qed.

(** A prefix of [x ++ y] longer than [x] continues as a prefix of [y]. *)
Lemma str_startswith_app_long (p x y : str) :
  length x <= length p ->
  str_startswith p (x ++ y) = true ->
  p = x ++ skipn (length x) p /\ str_startswith (skipn (length x) p) y = true.
Proof.
  revert p; induction x as [|c x IH]; intros p Hlen H; simpl in *; [auto|].
  destruct p as [|c' p]; simpl in *; [lia|].
  apply andb_true_iff in H as [Hc H].
  apply Ascii.eqb_eq in Hc; subst c'.
  destruct (IH p ltac:(lia) H) as [Hp Hy].
  split; [f_equal; exact Hp | exact Hy].
Qed.

Lemma str_in_app_l (sub x y : str) :
  str_in sub x = true -> str_in sub (x ++ y) = true.
Proof.
  induction x as [|c x IH]; simpl.
  - destruct (str_startswith sub []) eqn:E; [|discriminate].
    destruct sub; [|discriminate]. intros _. destruct y; reflexivity.
  - destruct (str_startswith sub (c :: x)) eqn:E.
    + intros _.
      apply str_startswith_split in E.
      assert (H : str_startswith sub (c :: x ++ y) = true).
      { change (c :: x ++ y) with ((c :: x) ++ y). rewrite E.
        rewrite <- app_assoc. apply str_startswith_app. }
      rewrite H; reflexivity.
    + intros H. rewrite (IH H). destruct (str_startswith sub (c :: x ++ y)); reflexivity.
Qed.

Lemma str_in_app_r (sub x y : str) :
  str_in sub y = true -> str_in sub (x ++ y) = true.
Proof.
  intros H; induction x as [|c x IH]; simpl; [exact H|].
  rewrite IH. destruct (str_startswith sub (c :: x ++ y)); reflexivity.
Qed.

Lemma str_in_startswith (sub s : str) :
  str_startswith sub s = true -> str_in sub s = true.
Proof. intros H; destruct s; simpl in *; rewrite H; reflexivity. Qed.

Lemma str_in_cons_false (sub : str) (c : ascii) (s : str) :
  str_in sub (c :: s) = false ->
  str_startswith sub (c :: s) = false /\ str_in sub s = false.
Proof.
  simpl. destruct (str_startswith sub (c :: s)); [discriminate | auto].
Qed.

(** Replacing a text that does not occur changes nothing. *)
Lemma replace_scan_absent (old new s : str) :
  str_in old s = false -> replace_scan old new s 0 = s.
Proof.
  induction s as [|c s IH]; intros H; [reflexivity|].
  apply str_in_cons_false in H as [H1 H2].
  cbn [replace_scan]. rewrite H1. f_equal; apply IH; exact H2.
Qed.

(** The scan passes over the rest of an occurrence it has just rewritten. *)
Lemma replace_scan_skip (old new x s : str) :
  replace_scan old new (x ++ s) (length x) = replace_scan old new s 0.
Proof.
  induction x as [|c x IH]; simpl; [destruct s; reflexivity | exact IH].
Qed.

Lemma str_replace_nonempty (old new s : str) :
  old <> [] -> str_replace old new s = replace_scan old new s 0.
Proof. destruct old; [contradiction | reflexivity]. Qed.

Lemma replace_scan_occurrence (old new s : str) :
  old <> [] ->
  replace_scan old new (old ++ s) 0 = new ++ replace_scan old new s 0.
Proof.
  intros Hne. destruct old as [|c old]; [contradiction|].
  cbn [app replace_scan].
  change (c :: old ++ s) with ((c :: old) ++ s).
  rewrite str_startswith_app. f_equal.
  replace (length (c :: old) - 1) with (length old) by (simpl; lia).
  apply replace_scan_skip.
Qed.

(* ================================================================== *)
(** * URL mapper *)
(* ================================================================== *)

Lemma map_url_cons (dir : direction) (e : str * str) (rest : list (str * str))
                   (url : str) :
  map_url dir (e :: rest) url
  = map_url dir rest
      (if str_in (source_of dir e) url
       then str_replace (source_of dir e) (target_of dir e) url
       else url).
Proof. destruct dir, e as [i j]; reflexivity. Qed.

Lemma map_url_nil (dir : direction) (url : str) : map_url dir [] url = url.
Proof. destruct dir; reflexivity. Qed.

Lemma map_url_no_match (dir : direction) (table : list (str * str)) (url : str) :
  Forall (fun e => str_in (source_of dir e) url = false) table ->
  map_url dir table url = url.
Proof.
  induction 1 as [|e table He _ IH]; [apply map_url_nil|].
  rewrite map_url_cons, He; exact IH.
Qed.

Lemma map_url_skip (dir : direction) (pre table : list (str * str)) (url : str) :
  Forall (fun e => str_in (source_of dir e) url = false) pre ->
  map_url dir (pre ++ table) url = map_url dir table url.
Proof.
  induction 1 as [|e pre He _ IH]; [reflexivity|].
  cbn [app]. rewrite map_url_cons, He; exact IH.
Qed.

Lemma first_match_replace_skip (dir : direction) (pre table : list (str * str))
                               (url : str) :
  Forall (fun e => str_in (source_of dir e) url = false) pre ->
  first_match_replace dir (pre ++ table) url = first_match_replace dir table url.
Proof.
  induction 1 as [|e pre He _ IH]; [reflexivity|].
  cbn [app first_match_replace]. rewrite He; exact IH.
Qed.

(** C4, as the code has it.  Both directions walk the whole table: the
    first entry whose source occurs in the URL is applied (all occurrences
    replaced), and the entries after it are then applied to the rewritten
    URL; the result is the first-match replacement when none of the later
    sources occurs in the rewritten URL. *)
Theorem C4_map_url_walks_the_whole_table
    (dir : direction) (pre post : list (str * str)) (e : str * str) (url : str) :
  Forall (fun e' => str_in (source_of dir e') url = false) pre ->
  str_in (source_of dir e) url = true ->
  let url' := str_replace (source_of dir e) (target_of dir e) url in
  map_url dir (pre ++ e :: post) url = map_url dir post url' /\
  (Forall (fun e' => str_in (source_of dir e') url' = false) post ->
   map_url dir (pre ++ e :: post) url
   = first_match_replace dir (pre ++ e :: post) url).
Proof.
  intros Hpre He url'.
  assert (Hstep : map_url dir (pre ++ e :: post) url = map_url dir post url').
  { rewrite map_url_skip by exact Hpre.
    rewrite map_url_cons, He. reflexivity. }
  split; [exact Hstep|].
  intros Hpost.
  rewrite Hstep, map_url_no_match by exact Hpost.
  rewrite first_match_replace_skip by exact Hpre.
  cbn [first_match_replace]. rewrite He. reflexivity.
Qed.

Lemma C4_map_url_walks_the_whole_table_witness :
  map_url ToReal [(py "a", py "b"); (py "c", py "d"); (py "e", py "f")] (py "xcxe")
  = py "xdxf".
Proof.
  exact (proj1 (C4_map_url_walks_the_whole_table ToReal
                  [(py "a", py "b")] [(py "e", py "f")] (py "c", py "d") (py "xcxe")
                  ltac:(repeat constructor) eq_refl)).
Defined.

(** C4, as the claim words it, fails: with two entries whose sources both
    occur in the URL, the second one is applied as well. *)
Lemma C4_first_match_counterexample :
  let table := [ (py "http://localhost:7770", py "http://onestopmarket.com");
                 (py "http://localhost:9999", py "http://reddit.com") ] in
  let url := py "http://localhost:7770/?next=http://localhost:9999/f" in
  str_in (py "http://localhost:7770") url = true /\
  map_url_to_real table url
  = py "http://onestopmarket.com/?next=http://reddit.com/f" /\
  first_match_replace ToReal table url
  = py "http://onestopmarket.com/?next=http://localhost:9999/f" /\
  map_url_to_real table url <> first_match_replace ToReal table url.
Proof.
  cbv zeta. repeat split; try (vm_compute; reflexivity).
  vm_compute. discriminate.
Qed.

(** ** Round trip through a single entry *)

Section RoundTrip.

Variables i j : str.
Hypothesis i_nonempty : i <> [].
Hypothesis j_nonempty : j <> [].
Hypothesis j_unbordered : has_border j = false.

Lemma border_from_overlap (w t : str) :
  j = w ++ t -> w <> [] -> t <> [] -> str_startswith t j = true -> False.
Proof.
  intros Hj Hw Ht Hpre.
  assert (Hb : has_border j = true); [|congruence].
  apply existsb_exists. exists (length t).
  assert (Hlen : length j = length w + length t) by (rewrite Hj, length_app; lia).
  destruct w as [|c w]; [contradiction|]. destruct t as [|c' t]; [contradiction|].
  simpl in Hlen. split.
  - apply in_seq. simpl; lia.
  - unfold border_at. apply str_eqb_eq.
    apply str_startswith_split in Hpre.
    rewrite Hpre at 1. rewrite firstn_app, Nat.sub_diag, firstn_all, firstn_O, app_nil_r.
    replace (length j - length (c' :: t)) with (length (c :: w)) by (simpl; lia).
    rewrite Hj, skipn_app, Nat.sub_diag, skipn_all. reflexivity.
Qed.

(** While the forward scan copies characters, the real string cannot
    appear in its output ahead of the place where it is written. *)
Lemma no_early_match (u w : str) :
  w <> [] -> str_in j (w ++ u) = false ->
  str_startswith j (w ++ replace_scan i j u 0) = false.
Proof.
  revert w; induction u as [|c u IH]; intros w Hw Hin.
  - simpl. destruct (str_startswith j (w ++ [])) eqn:E; [|reflexivity].
    apply str_in_startswith in E. congruence.
  - cbn [replace_scan].
    destruct (str_startswith i (c :: u)) eqn:Ei.
    + destruct (str_startswith j (w ++ j ++ replace_scan i j u (length i - 1))) eqn:E;
        [exfalso|reflexivity].
      destruct (Nat.le_gt_cases (length j) (length w)) as [Hle|Hgt].
      * apply str_startswith_app_short in E; [|exact Hle].
        apply str_in_startswith in E.
        rewrite (str_in_app_l _ _ _ E) in Hin. discriminate.
      * apply str_startswith_app_long in E; [|lia].
        destruct E as [Hj Ht].
        assert (Hlt : length (skipn (length w) j) <= length j)
          by (rewrite length_skipn; lia).
        apply str_startswith_app_short in Ht; [|exact Hlt].
        apply (border_from_overlap w (skipn (length w) j)); auto.
        intros Hnil. apply (f_equal (@length ascii)) in Hnil.
        rewrite length_skipn in Hnil. simpl in Hnil. lia.
    + change (w ++ c :: replace_scan i j u 0)
        with (w ++ [c] ++ replace_scan i j u 0).
      rewrite app_assoc. apply IH.
      * destruct w; discriminate.
      * rewrite <- app_assoc. exact Hin.
Qed.

Lemma replace_round_trip_bounded (n : nat) (u : str) :
  length u <= n -> str_in j u = false ->
  replace_scan j i (replace_scan i j u 0) 0 = u.
Proof.
  revert u; induction n as [|n IH]; intros u Hlen Hin.
  - destruct u; [reflexivity | simpl in Hlen; lia].
  - destruct u as [|c u]; [reflexivity|].
    destruct (str_startswith i (c :: u)) eqn:Ei.
    + apply str_startswith_split in Ei.
      set (rest := skipn (length i) (c :: u)) in *.
      rewrite Ei, !replace_scan_occurrence by assumption.
      f_equal. apply IH.
      * apply (f_equal (@length ascii)) in Ei. rewrite length_app in Ei.
        destruct i; [contradiction|]. simpl in *. lia.
      * destruct (str_in j rest) eqn:E; [|reflexivity].
        rewrite Ei, (str_in_app_r _ _ _ E) in Hin. discriminate.
    + cbn [replace_scan]. rewrite Ei.
      pose proof (no_early_match u [c] ltac:(discriminate) Hin) as Hno.
      cbn [app] in Hno.
      cbn [replace_scan]. rewrite Hno. f_equal.
      apply IH; [simpl in Hlen; lia|].
      apply str_in_cons_false in Hin. tauto.
Qed.

Lemma map_url_to_real_single (u : str) :
  map_url_to_real [(i, j)] u = replace_scan i j u 0.
Proof.
  unfold map_url_to_real; cbn [fold_left].
  destruct (str_in i u) eqn:E.
  - apply str_replace_nonempty, i_nonempty.
  - symmetry. apply replace_scan_absent. exact E.
Qed.

Lemma map_url_to_local_single (v : str) :
  map_url_to_local [(i, j)] v = replace_scan j i v 0.
Proof.
  unfold map_url_to_local; cbn [fold_left].
  destruct (str_in j v) eqn:E.
  - apply str_replace_nonempty, j_nonempty.
  - symmetry. apply replace_scan_absent. exact E.
Qed.

End RoundTrip.

(** C8, as the code has it.  For a table with the single entry
    [(local, real)], both strings non-empty and [real] without a border,
    mapping a URL in which [real] does not occur to its real form and back
    gives the URL again. *)
Theorem C8_single_entry_round_trip (local real u : str) :
  local <> [] -> real <> [] -> has_border real = false ->
  str_in real u = false ->
  map_url_to_local [(local, real)] (map_url_to_real [(local, real)] u) = u.
Proof.
  intros Hl Hr Hb Hin.
  rewrite (map_url_to_real_single local real) by assumption.
  rewrite (map_url_to_local_single local real) by assumption.
  apply (replace_round_trip_bounded local real Hl Hr Hb (length u));
    [apply Nat.le_refl | exact Hin].
Qed.

Lemma C8_single_entry_round_trip_witness :
  let local := py "http://localhost:7770" in
  let real := py "http://onestopmarket.com" in
  let u := py "http://localhost:7770/a?back=http://localhost:7770/b" in
  map_url_to_real [(local, real)] u
  = py "http://onestopmarket.com/a?back=http://onestopmarket.com/b" /\
  map_url_to_local [(local, real)] (map_url_to_real [(local, real)] u) = u.
Proof.
  cbv zeta. split; [vm_compute; reflexivity|].
  apply (C8_single_entry_round_trip
           (py "http://localhost:7770") (py "http://onestopmarket.com")
           (py "http://localhost:7770/a?back=http://localhost:7770/b"));
    [discriminate | discriminate | vm_compute; reflexivity | vm_compute; reflexivity].
Defined.

(** C8, as the claim words it, fails: a URL that already holds the real
    string is left alone on the way out and rewritten on the way back. *)
Lemma C8_round_trip_counterexample :
  let table := [ (py "http://localhost:7770", py "http://onestopmarket.com") ] in
  let u := py "http://onestopmarket.com/cart" in
  map_url_to_real table u = u /\
  map_url_to_local table (map_url_to_real table u) = py "http://localhost:7770/cart" /\
  map_url_to_local table (map_url_to_real table u) <> u.
Proof.
  cbv zeta. repeat split; try (vm_compute; reflexivity).
  vm_compute. discriminate.
Qed.

(** The border condition cannot be dropped either: here the real string
    does not occur in the URL, yet the way back finds it ahead of the place
    where it was written. *)
Lemma round_trip_needs_unbordered :
  let table := [ (py "x", py "aba") ] in
  str_in (py "aba") (py "abx") = false /\
  map_url_to_local table (map_url_to_real table (py "abx")) = py "xba".
Proof. cbv zeta. split; vm_compute; reflexivity. Qed.

(* ================================================================== *)
(** * Action extractor *)
(* ================================================================== *)

Lemma fresh_react_chat (intro : str) (mt cl : Z) (mol : nat) :
  fresh_react intro (chat_config mt cl mol)
  = Ok (chat_react intro (chat_config mt cl mol)).
Proof. reflexivity. Qed.

Section Delimiter.

Variable d : str.

Lemma str_find_cons_none (c : ascii) (s : str) :
  str_find d (c :: s) = None ->
  str_startswith d (c :: s) = false /\ str_find d s = None.
Proof.
  cbn [str_find]. destruct (str_startswith d (c :: s)); [discriminate|].
  destruct (str_find d s); [discriminate | auto].
Qed.

Lemma str_find_cons_some (c : ascii) (s : str) (p : nat) :
  str_find d (c :: s) = Some p ->
  (str_startswith d (c :: s) = true /\ p = 0) \/
  (str_startswith d (c :: s) = false /\
   exists p', p = S p' /\ str_find d s = Some p').
Proof.
  cbn [str_find]. destruct (str_startswith d (c :: s)).
  - intros H; inversion H; auto.
  - destruct (str_find d s) as [p'|]; [|discriminate].
    intros H; inversion H; right; eauto.
Qed.

Lemma str_find_nil_some (p : nat) :
  str_find d [] = Some p -> str_startswith d [] = true /\ p = 0.
Proof.
  cbn [str_find]. destruct (str_startswith d []); [|discriminate].
  intros H; inversion H; auto.
Qed.

Lemma str_find_none_skipn (k : nat) (s : str) :
  str_find d s = None -> str_find d (skipn k s) = None.
Proof.
  revert s; induction k as [|k IH]; intros s H; [exact H|].
  destruct s as [|c s]; [exact H|].
  apply str_find_cons_none in H as [_ H]. apply IH; exact H.
Qed.

(** Before the first occurrence the delimiter does not stand. *)
Lemma str_find_first (s : str) (p k : nat) :
  str_find d s = Some p -> k < p -> str_startswith d (skipn k s) = false.
Proof.
  revert p k; induction s as [|c s IH]; intros p k H Hk.
  - apply str_find_nil_some in H as [_ ->]. lia.
  - apply str_find_cons_some in H as [[_ ->]|[Hs (p' & -> & Hp')]]; [lia|].
    destruct k as [|k]; [exact Hs|].
    apply (IH p'); [exact Hp' | lia].
Qed.

Lemma lazy_group_none (s : str) :
  str_find d s = None -> lazy_group d s = None.
Proof.
  induction s as [|c s IH]; intros H.
  - cbn in *. destruct (str_startswith d []); [discriminate | reflexivity].
  - apply str_find_cons_none in H as [Hs H].
    cbn [lazy_group]. rewrite Hs, (IH H).
    destruct (Ascii.eqb c newline); reflexivity.
Qed.

(** The lazy group stops in front of the first occurrence, provided no
    newline stands before it. *)
Lemma lazy_group_some (s : str) (q : nat) :
  str_find d s = Some q -> no_newline (firstn q s) = true ->
  lazy_group d s = Some (firstn q s).
Proof.
  revert q; induction s as [|c s IH]; intros q H Hnl.
  - apply str_find_nil_some in H as [Hs ->].
    cbn [lazy_group]. rewrite Hs. reflexivity.
  - apply str_find_cons_some in H as [[Hs ->]|[Hs (q' & -> & Hq')]];
      cbn [lazy_group]; rewrite Hs; [reflexivity|].
    cbn [firstn no_newline forallb] in Hnl.
    apply andb_true_iff in Hnl as [Hc Hnl].
    apply negb_true_iff in Hc. rewrite Hc.
    rewrite (IH q' Hq' Hnl). reflexivity.
Qed.

(** A newline in front of the first occurrence makes the lazy group fail. *)
Lemma lazy_group_newline (s : str) (q : nat) :
  str_find d s = Some q -> no_newline (firstn q s) = false ->
  lazy_group d s = None.
Proof.
  revert q; induction s as [|c s IH]; intros q H Hnl.
  - apply str_find_nil_some in H as [_ ->]. discriminate.
  - apply str_find_cons_some in H as [[_ ->]|[Hs (q' & -> & Hq')]];
      [discriminate|].
    cbn [lazy_group]. rewrite Hs.
    cbn [firstn no_newline forallb] in Hnl.
    destruct (Ascii.eqb c newline); [reflexivity|].
    cbn [negb andb] in Hnl. rewrite (IH q' Hq' Hnl). reflexivity.
Qed.

Lemma re_search_cons_skip (c : ascii) (s : str) :
  str_startswith d (c :: s) = false ->
  re_search d (c :: s) = re_search d s.
Proof. intros H. cbn [re_search]. rewrite H. reflexivity. Qed.

(** The search fails when every occurrence is the last one. *)
Lemma re_search_none (s : str) :
  (forall k, str_startswith d (skipn k s) = true ->
             str_find d (skipn (k + length d) s) = None) ->
  re_search d s = None.
Proof.
  induction s as [|c s IH]; intros H.
  - cbn [re_search]. destruct (str_startswith d []) eqn:E; [|reflexivity].
    rewrite lazy_group_none; [reflexivity|]. exact (H 0 E).
  - assert (Hrest : re_search d s = None).
    { apply IH. intros k Hk. exact (H (S k) Hk). }
    cbn [re_search]. destruct (str_startswith d (c :: s)) eqn:E.
    + rewrite lazy_group_none; [exact Hrest|]. exact (H 0 E).
    + exact Hrest.
Qed.

(** Fewer than two occurrences: the search fails. *)
Lemma re_search_fewer_than_two (s : str) :
  between_first_two d s = None -> re_search d s = None.
Proof.
  unfold between_first_two. intros H. apply re_search_none. intros k Hk.
  destruct (str_find d s) as [p|] eqn:Hp.
  - destruct (str_find d (skipn (p + length d) s)) eqn:Hq; [discriminate|].
    destruct (Nat.lt_ge_cases k p) as [Hlt|Hge].
    + rewrite (str_find_first s p k Hp Hlt) in Hk. discriminate.
    + replace (k + length d) with ((k - p) + (p + length d)) by lia.
      rewrite <- skipn_skipn. apply str_find_none_skipn. exact Hq.
  - apply str_find_none_skipn. exact Hp.
Qed.

(** Two occurrences with no newline between them: the search returns the
    text between the first and the second. *)
Lemma re_search_between (s a : str) :
  between_first_two d s = Some a -> no_newline a = true ->
  re_search d s = Some a.
Proof.
  unfold between_first_two.
  destruct (str_find d s) as [p|] eqn:Hp; [|discriminate].
  revert p Hp; induction s as [|c s IH]; intros p Hp H Hnl.
  - apply str_find_nil_some in Hp as [Hs ->].
    destruct (str_find d (skipn (0 + length d) [])) as [q|] eqn:Hq; [|discriminate].
    cbn [Nat.add] in *. inversion H; subst a. cbn [re_search]. rewrite Hs.
    rewrite (lazy_group_some _ q Hq Hnl). reflexivity.
  - apply str_find_cons_some in Hp as [[Hs ->]|[Hs (p' & -> & Hp')]].
    + destruct (str_find d (skipn (0 + length d) (c :: s))) as [q|] eqn:Hq;
        [|discriminate].
      cbn [Nat.add] in *. inversion H; subst a. cbn [re_search]. rewrite Hs.
      rewrite (lazy_group_some _ q Hq Hnl). reflexivity.
    + rewrite re_search_cons_skip by exact Hs.
      apply (IH p' Hp'); [exact H | exact Hnl].
Qed.

End Delimiter.

Lemma no_newline_firstn (q : nat) (s : str) :
  no_newline s = true -> no_newline (firstn q s) = true.
Proof.
  unfold no_newline. rewrite <- (firstn_skipn q s) at 1.
  rewrite forallb_app, andb_true_iff. tauto.
Qed.

Lemma no_newline_skipn (k : nat) (s : str) :
  no_newline s = true -> no_newline (skipn k s) = true.
Proof.
  unfold no_newline. rewrite <- (firstn_skipn k s) at 1.
  rewrite forallb_app, andb_true_iff. tauto.
Qed.

Lemma between_first_two_no_newline (d s a : str) :
  between_first_two d s = Some a -> no_newline s = true -> no_newline a = true.
Proof.
  unfold between_first_two.
  destruct (str_find d s) as [p|]; [|discriminate].
  destruct (str_find d (skipn (p + length d) s)) as [q|]; [|discriminate].
  intros H Hs; inversion H; subst a.
  apply no_newline_firstn, no_newline_skipn, Hs.
Qed.

(** C3, as the code has it.  With [d] the configured delimiter, free of
    regular-expression metacharacters as the shipped backtick is:
    when the reply holds fewer than two occurrences of [d], the extraction
    raises the parsing error; when it holds two and no newline stands
    between the first and the second, [_extract_action] returns the text
    strictly between them and [extract_action] returns that text mapped to
    local URLs; and for a reply without any newline the error is raised
    exactly when fewer than two occurrences exist. *)
Theorem C3_extract_action_between_delimiters
    (table : list (str * str)) (self : ReactPromptConstructor) (response : str) :
  literal_delimiter (action_splitter (meta_data (instruction (base self)))) = true ->
  let d := action_splitter (meta_data (instruction (base self))) in
  (between_first_two d response = None ->
   exists msg,
     _extract_action self response = Raise (ActionParsingError msg) /\
     extract_action table self response = Raise (ActionParsingError msg)) /\
  (forall a,
     between_first_two d response = Some a -> no_newline a = true ->
     _extract_action self response = Ok a /\
     extract_action table self response = Ok (map_url_to_local table a)) /\
  (no_newline response = true ->
   ((exists msg, _extract_action self response = Raise (ActionParsingError msg))
    <-> between_first_two d response = None)).
Proof.
  intros _ d. split; [|split].
  - intros H. apply re_search_fewer_than_two in H.
    unfold extract_action, _extract_action. fold d. rewrite H.
    eexists; split; reflexivity.
  - intros a H Hnl. pose proof (re_search_between d response a H Hnl) as Hs.
    unfold extract_action, _extract_action. fold d. rewrite Hs.
    split; reflexivity.
  - intros Hnl. split.
    + intros [msg Hmsg].
      destruct (between_first_two d response) as [a|] eqn:Hb; [|reflexivity].
      pose proof (between_first_two_no_newline d response a Hb Hnl) as Ha.
      pose proof (re_search_between d response a Hb Ha) as Hs.
      unfold _extract_action in Hmsg. fold d in Hmsg. rewrite Hs in Hmsg.
      discriminate.
    + intros H. apply re_search_fewer_than_two in H.
      unfold _extract_action. fold d. rewrite H. eexists; reflexivity.
Qed.

Lemma C3_extract_action_between_delimiters_witness :
  let self := chat_react [] (chat_config 384 4096 0) in
  let table := [ (py "http://localhost:7770", py "http://onestopmarket.com") ] in
  let response := py "Thought: the price is shown. Action: `stop [$279.49]` done" in
  _extract_action self response = Ok (py "stop [$279.49]") /\
  extract_action table self response = Ok (py "stop [$279.49]").
Proof.
  cbv zeta.
  exact (proj1 (proj2 (C3_extract_action_between_delimiters
                         [ (py "http://localhost:7770", py "http://onestopmarket.com") ]
                         (chat_react [] (chat_config 384 4096 0))
                         (py "Thought: the price is shown. Action: `stop [$279.49]` done")
                         eq_refl))
               (py "stop [$279.49]") eq_refl eq_refl).
Defined.

(** C3, as the claim words it, fails: the dot of the pattern does not match
    a newline.  Here the reply holds two delimiters and the extraction
    raises; with a third delimiter it returns the text between the second
    and the third. *)
Lemma C3_newline_counterexample :
  let self := chat_react [] (chat_config 384 4096 0) in
  let response := py "Action: `type [164] [restaurants" ++ [newline] ++ py "near CMU]`" in
  between_first_two (py "`") response
  = Some (py "type [164] [restaurants" ++ [newline] ++ py "near CMU]") /\
  (exists msg, _extract_action self response = Raise (ActionParsingError msg)) /\
  _extract_action self (response ++ py " or `go_back`") = Ok (py " or ").
Proof.
  cbv zeta. split; [vm_compute; reflexivity|]. split.
  - eexists. vm_compute. reflexivity.
  - vm_compute. reflexivity.
Qed.

(* ================================================================== *)
(** * Payload assembly *)
(* ================================================================== *)

(** C9.  With an OpenAI provider and the completion mode,
    [get_lm_api_input] of the history-carrying constructor raises, because
    it reads the local [message] before binding it; and whenever it returns
    a payload, the mode is the chat mode and the payload is the single user
    message. *)
Theorem C9_completion_mode_always_raises :
  (forall (self : ReactPromptConstructor) (intro : str)
          (examples : list (str * str)) (current : str),
      str_in (py "openai") (provider (lm_config (base self))) = true ->
      mode (lm_config (base self)) = py "completion" ->
      get_lm_api_input self intro examples current = Raise UnboundLocalError) /\
  (forall (self : ReactPromptConstructor) (intro : str)
          (examples : list (str * str)) (current : str) (payload : api_input),
      get_lm_api_input self intro examples current = Ok payload ->
      mode (lm_config (base self)) = py "chat" /\
      payload = Messages [ {| role := py "user"; name := None; content := current |} ]).
Proof.
  split.
  - intros self intro examples current Hp Hm.
    unfold get_lm_api_input. rewrite Hp, Hm. reflexivity.
  - intros self intro examples current payload.
    unfold get_lm_api_input.
    destruct (str_in (py "openai") (provider (lm_config (base self))));
      [|discriminate].
    destruct (str_eqb (mode (lm_config (base self))) (py "chat")) eqn:Hchat.
    + intros H; inversion H. apply str_eqb_eq in Hchat. auto.
    + destruct (str_eqb (mode (lm_config (base self))) (py "completion"));
        discriminate.
Qed.

Lemma C9_completion_mode_always_raises_witness :
  let cfg := {| provider := py "openai"; mode := py "completion";
                gen_config := {| max_tokens := 384; context_length := 4096;
                                 max_obs_length := 0 |} |} in
  get_lm_api_input (chat_react (py "You are an agent.") cfg)
                   [] [] (py "URL: http://onestopmarket.com")
  = Raise UnboundLocalError.
Proof.
  cbv zeta.
  apply (proj1 C9_completion_mode_always_raises); reflexivity.
Defined.

(** In completion mode the constructor cannot even be built: the system
    prompt is a text block, and counting its tokens indexes characters. *)
Lemma react_init_completion_raises (b : PromptConstructor) :
  str_in (py "openai") (provider (lm_config b)) = true ->
  mode (lm_config b) = py "completion" ->
  react_init b = Raise TypeError.
Proof.
  intros Hp Hm. unfold react_init, get_lm_api_initialize.
  rewrite Hp, Hm. cbn [str_eqb py list_ascii_of_string].
  cbn -[example_text py]. destruct (intro (instruction b)); reflexivity.
Qed.

(* ================================================================== *)
(** * Transcript: rationals and sums *)
(* ================================================================== *)

Lemma Qsum_cons (x : Q) (l : list Q) : Qsum (x :: l) = (x + Qsum l)%Q.
Proof. reflexivity. Qed.

Lemma Qsum_app (a b : list Q) : (Qsum (a ++ b) == Qsum a + Qsum b)%Q.
Proof.
  induction a as [|x a IH].
  - change (Qsum ([] ++ b)) with (Qsum b). change (Qsum []) with 0%Q. lra.
  - change ((x :: a) ++ b) with (x :: a ++ b). rewrite !Qsum_cons, IH. lra.
Qed.

Lemma fold_left_Qminus (l : list Q) (s : Q) :
  (fold_left Qminus l s == s - Qsum l)%Q.
Proof.
  revert s; induction l as [|x l IH]; intros s.
  - change (fold_left Qminus [] s) with s. change (Qsum []) with 0%Q. lra.
  - change (fold_left Qminus (x :: l) s) with (fold_left Qminus l (s - x)%Q).
    rewrite Qsum_cons, IH. lra.
Qed.

Lemma Qsum_nonneg (l : list Q) :
  Forall (fun c => (0 <= c)%Q) l -> (0 <= Qsum l)%Q.
Proof.
  induction 1 as [|x l Hx _ IH].
  - change (Qsum []) with 0%Q. lra.
  - rewrite Qsum_cons. lra.
Qed.

Lemma msg_tokens_nonneg (msg : str) : (0 <= msg_tokens msg)%Q.
Proof.
  unfold msg_tokens, Qdiv, Qmult, Qle; simpl. lia.
Qed.

Lemma Forall_skipn {A : Type} (P : A -> Prop) (n : nat) (l : list A) :
  Forall P l -> Forall P (skipn n l).
Proof.
  intros H. rewrite <- (firstn_skipn n l) in H.
  apply Forall_app in H. tauto.
Qed.

Lemma nth_error_skipn {A : Type} (l : list A) (n : nat) (c : A) :
  nth_error l n = Some c -> skipn n l = c :: skipn (S n) l.
Proof.
  revert n; induction l as [|x l IH]; intros [|n] H; try discriminate.
  - inversion H; reflexivity.
  - cbn [skipn]. rewrite (IH n H). reflexivity.
Qed.

Lemma last_opt_snoc {A : Type} (l : list A) (x : A) : last_opt (l ++ [x]) = Some x.
Proof. unfold last_opt. rewrite rev_app_distr. reflexivity. Qed.

Lemma last_opt_nil {A : Type} : @last_opt A [] = None.
Proof. reflexivity. Qed.

(* ================================================================== *)
(** * Transcript: appending and removing *)
(* ================================================================== *)

Lemma add_message_run (msg role : str) (self : ReactPromptConstructor) :
  add_message msg role self
  = (Ok PyNone,
     set_messages_token_sum
       (set_messages_tokens_list
          (set_messages self
             (messages self ++ [ {| role := role; name := None; content := msg |} ]))
          (messages_tokens_list self ++ [msg_tokens msg]))
       (messages_token_sum self + msg_tokens msg)%Q).
Proof. reflexivity. Qed.

Lemma aligned_length (self : ReactPromptConstructor) :
  aligned self -> length (messages_tokens_list self) = length (messages self).
Proof. unfold aligned. intros ->. apply length_map. Qed.

Lemma add_message_preserves (msg role : str) (self : ReactPromptConstructor) :
  transcript_inv self -> cursor_ok self ->
  transcript_inv (snd (add_message msg role self)) /\
  cursor_ok (snd (add_message msg role self)).
Proof.
  intros [Hal Hsum] Hcur. pose proof (aligned_length self Hal) as Hlen.
  rewrite add_message_run. unfold transcript_inv, aligned, cursor_ok in *.
  cbn [snd set_messages_token_sum set_messages_tokens_list set_messages
       messages messages_tokens_list messages_token_sum msg_start_idx].
  repeat split.
  - rewrite map_app, Hal. reflexivity.
  - rewrite skipn_app, Qsum_app, Hsum.
    replace (msg_start_idx self - length (messages_tokens_list self)) with 0 by lia.
    cbn [skipn]. rewrite Qsum_cons. change (Qsum []) with 0%Q. lra.
  - rewrite length_app. simpl. lia.
Qed.

(** What [remove_obs] does on a transcript that ends with [prev]. *)
Lemma remove_obs_run (self : ReactPromptConstructor)
                     (init : list message) (prev : message) :
  messages self = init ++ [prev] -> aligned self ->
  remove_obs self
  = (Ok PyNone,
     if is_observation prev
     then set_messages_token_sum
            (set_messages_tokens_list (set_messages self init)
               (removelast (messages_tokens_list self)))
            (messages_token_sum self - msg_tokens (content prev))%Q
     else self).
Proof.
  intros Hm Hal. unfold remove_obs, bind, get. rewrite Hm, last_opt_snoc.
  fold (is_observation prev). destruct (is_observation prev); [|reflexivity].
  assert (Hl : last_opt (messages_tokens_list self)
               = Some (msg_tokens (content prev))).
  { rewrite Hal, Hm, map_app. apply last_opt_snoc. }
  unfold modify, pop_tokens, bind, get, ret.
  cbn [set_messages messages_tokens_list]. rewrite Hl.
  rewrite Hm, removelast_last. reflexivity.
Qed.

(** The recorded cost of the last message is the cost of its content. *)
Lemma recorded_cost_last (self : ReactPromptConstructor)
                         (init : list message) (prev : message) :
  messages self = init ++ [prev] -> aligned self ->
  last (messages_tokens_list self) 0%Q = msg_tokens (content prev) /\
  removelast (messages_tokens_list self)
  = map (fun m => msg_tokens (content m)) init.
Proof.
  intros Hm Hal. rewrite Hal, Hm, map_app. cbn [map].
  rewrite last_last, removelast_last. auto.
Qed.

(** C5, as the code has it.  On an index-aligned transcript that ends with
    [prev]: if [prev] has the role [user] and a content starting with
    [OBSERVATION:], [remove_obs] removes this one message and its cost
    entry and lowers the running sum by the recorded cost of [prev];
    otherwise it changes nothing.  It hands back [None] in both cases. *)
Theorem C5_remove_obs_removes_last_observation
    (self : ReactPromptConstructor) (init : list message) (prev : message) :
  messages self = init ++ [prev] -> aligned self ->
  fst (remove_obs self) = Ok PyNone /\
  (is_observation prev = true ->
   messages (snd (remove_obs self)) = init /\
   messages_tokens_list (snd (remove_obs self))
   = removelast (messages_tokens_list self) /\
   messages_token_sum (snd (remove_obs self))
   = (messages_token_sum self - last (messages_tokens_list self) 0)%Q /\
   msg_start_idx (snd (remove_obs self)) = msg_start_idx self /\
   aligned (snd (remove_obs self))) /\
  (is_observation prev = false -> snd (remove_obs self) = self).
Proof.
  intros Hm Hal. rewrite (remove_obs_run self init prev Hm Hal).
  destruct (recorded_cost_last self init prev Hm Hal) as [Hlast Hrem].
  split; [reflexivity|]. split.
  - intros ->. cbn [snd]. unfold aligned.
    cbn [set_messages set_messages_tokens_list set_messages_token_sum
         messages messages_tokens_list messages_token_sum msg_start_idx].
    rewrite Hlast. repeat split. exact Hrem.
  - intros ->. reflexivity.
Qed.

Lemma C5_remove_obs_removes_last_observation_witness :
  let turn := py "ERROR MESSAGE: None URL: http://onestopmarket.com" in
  let obs := py "OBSERVATION: [1757] button 'Add to Cart'" in
  let self := snd (add_message obs (py "user")
                     (snd (add_message turn (py "user")
                             (chat_react [] (chat_config 384 4096 0))))) in
  fst (remove_obs self) = Ok PyNone /\
  messages (snd (remove_obs self))
  = [ {| role := py "user"; name := None; content := turn |} ] /\
  messages_token_sum (snd (remove_obs self))
  = (messages_token_sum self - last (messages_tokens_list self) 0)%Q.
Proof.
  cbv zeta.
  pose proof (C5_remove_obs_removes_last_observation
                (snd (add_message (py "OBSERVATION: [1757] button 'Add to Cart'")
                        (py "user")
                        (snd (add_message
                                (py "ERROR MESSAGE: None URL: http://onestopmarket.com")
                                (py "user")
                                (chat_react [] (chat_config 384 4096 0))))))
                [ {| role := py "user"; name := None;
                     content := py "ERROR MESSAGE: None URL: http://onestopmarket.com" |} ]
                {| role := py "user"; name := None;
                   content := py "OBSERVATION: [1757] button 'Add to Cart'" |}
                eq_refl eq_refl) as [Hret [Hrem _]].
  destruct (Hrem eq_refl) as (Hm & _ & Hs & _).
  split; [exact Hret|]. split; [exact Hm | exact Hs].
Defined.

(** C5, as the claim words it, fails on the returned value: the call that
    removes an observation and the call that removes nothing hand back the
    same [None], never a boolean. *)
Lemma C5_return_value_counterexample :
  let start := chat_react [] (chat_config 384 4096 0) in
  let removing := snd (add_message (py "OBSERVATION: [1] link") (py "user") start) in
  let keeping := snd (add_message (py "Thought: click it") (py "assistant") start) in
  messages (snd (remove_obs removing)) = [] /\
  messages (snd (remove_obs keeping)) = messages keeping /\
  fst (remove_obs removing) = Ok PyNone /\
  fst (remove_obs keeping) = Ok PyNone /\
  fst (remove_obs removing) <> Ok (PyBool true).
Proof.
  cbv zeta. repeat split; try (vm_compute; reflexivity).
  vm_compute. discriminate.
Qed.

(** C10.  On an empty message list [remove_obs] raises IndexError, and
    leaves the state as it was. *)
Theorem C10_remove_obs_on_empty_raises (self : ReactPromptConstructor) :
  messages self = [] -> remove_obs self = (Raise IndexError, self).
Proof.
  intros H. unfold remove_obs, bind, get. rewrite H. reflexivity.
Qed.

Lemma C10_remove_obs_on_empty_raises_witness :
  remove_obs (chat_react (py "You are an agent.") (chat_config 384 4096 0))
  = (Raise IndexError, chat_react (py "You are an agent.") (chat_config 384 4096 0)).
Proof.
  apply (C10_remove_obs_on_empty_raises
           (chat_react (py "You are an agent.") (chat_config 384 4096 0))).
  reflexivity.
Defined.

(** On a non-empty list it does not raise, provided the cost list is as
    long as the message list. *)
Lemma remove_obs_nonempty_returns (self : ReactPromptConstructor) :
  messages self <> [] -> aligned self -> fst (remove_obs self) = Ok PyNone.
Proof.
  intros Hne Hal.
  destruct (exists_last Hne) as (init & prev & Hm).
  rewrite (remove_obs_run self init prev Hm Hal). reflexivity.
Qed.

(** [remove_obs] keeps the invariant while the cursor stands before the
    last message. *)
Lemma remove_obs_preserves (self : ReactPromptConstructor) :
  transcript_inv self -> msg_start_idx self < length (messages self) ->
  transcript_inv (snd (remove_obs self)) /\ cursor_ok (snd (remove_obs self)).
Proof.
  intros [Hal Hsum] Hlt.
  assert (Hne : messages self <> []) by (destruct (messages self); [simpl in Hlt; lia | discriminate]).
  destruct (exists_last Hne) as (init & prev & Hm).
  rewrite (remove_obs_run self init prev Hm Hal).
  destruct (recorded_cost_last self init prev Hm Hal) as [_ Hrem].
  destruct (is_observation prev).
  - unfold transcript_inv, aligned, cursor_ok in *.
    cbn [snd set_messages set_messages_tokens_list set_messages_token_sum
         messages messages_tokens_list messages_token_sum msg_start_idx].
    rewrite Hm, length_app in Hlt. simpl in Hlt.
    split; [split|]; [exact Hrem | | lia].
    rewrite Hsum, Hrem, Hal, Hm, map_app. cbn [map].
    rewrite skipn_app, Qsum_app, length_map.
    replace (msg_start_idx self - length init) with 0 by lia.
    cbn [skipn]. rewrite Qsum_cons. change (Qsum []) with 0%Q. lra.
  - cbn [snd]. split; [split; assumption|]. unfold cursor_ok. lia.
Qed.

(* ================================================================== *)
(** * Transcript: truncation *)
(* ================================================================== *)

Lemma after_drops_0 (self : ReactPromptConstructor) : after_drops self 0 = self.
Proof.
  destruct self. unfold after_drops, set_msg_start_idx, set_messages_token_sum.
  cbn. rewrite Nat.add_0_r. reflexivity.
Qed.

Lemma after_drops_fields (self : ReactPromptConstructor) (k : nat) :
  messages (after_drops self k) = messages self /\
  messages_tokens_list (after_drops self k) = messages_tokens_list self /\
  msg_start_idx (after_drops self k) = msg_start_idx self + k /\
  sys_tokens (after_drops self k) = sys_tokens self /\
  intent_tokens (after_drops self k) = intent_tokens self /\
  gen (after_drops self k) = gen self.
Proof. repeat split. Qed.

(** One more drop, taken first. *)
Lemma after_drops_S (self : ReactPromptConstructor) (k : nat) (c : Q) :
  nth_error (messages_tokens_list self) (msg_start_idx self) = Some c ->
  after_drops (after_drops self 1) k = after_drops self (S k).
Proof.
  intros H. apply nth_error_skipn in H.
  destruct self. unfold after_drops, set_msg_start_idx, set_messages_token_sum.
  cbn in *. rewrite H. cbn [firstn fold_left].
  replace (msg_start_idx0 + 1) with (S msg_start_idx0) by lia.
  replace (S msg_start_idx0 + k) with (msg_start_idx0 + S k) by lia.
  reflexivity.
Qed.

Lemma truncate_loop_step (fuel : nat) (self : ReactPromptConstructor) (c : Q) :
  over_context self = true ->
  nth_error (messages_tokens_list self) (msg_start_idx self) = Some c ->
  truncate_loop (S fuel) self = truncate_loop fuel (after_drops self 1).
Proof.
  intros Hover Hnth. cbn [truncate_loop]. rewrite Hover, Hnth.
  f_equal. apply nth_error_skipn in Hnth.
  destruct self. unfold after_drops, set_msg_start_idx, set_messages_token_sum.
  cbn in *. rewrite Hnth. reflexivity.
Qed.

(** The loop, run with enough fuel: it drops some number [k] of messages,
    each one because the total was over the ceiling, and then either finds
    the total within the ceiling, or finds no cost under the cursor. *)
Lemma truncate_loop_spec (fuel : nat) (self : ReactPromptConstructor) :
  length (messages_tokens_list self) - msg_start_idx self < fuel ->
  exists k,
    (forall j, j < k -> over_context (after_drops self j) = true) /\
    (k = 0 \/ msg_start_idx self + k <= length (messages_tokens_list self)) /\
    ((over_context (after_drops self k) = false /\
      truncate_loop fuel self = Some (Ok tt, after_drops self k)) \/
     (over_context (after_drops self k) = true /\
      length (messages_tokens_list self) <= msg_start_idx self + k /\
      truncate_loop fuel self = Some (Raise IndexError, after_drops self k))).
Proof.
  revert self; induction fuel as [|fuel IH]; intros self Hfuel; [lia|].
  destruct (over_context self) eqn:Hover.
  - destruct (nth_error (messages_tokens_list self) (msg_start_idx self))
      as [c|] eqn:Hnth.
    + assert (Hlt : msg_start_idx self < length (messages_tokens_list self)).
      { apply nth_error_Some. congruence. }
      destruct (IH (after_drops self 1)) as (k & Hbefore & Hbound & Hend).
      { cbn [after_drops set_msg_start_idx set_messages_token_sum
             messages_tokens_list msg_start_idx]. lia. }
      exists (S k). split; [|split].
      * intros [|j] Hj; [rewrite after_drops_0; exact Hover|].
        rewrite <- (after_drops_S self j c Hnth). apply Hbefore. lia.
      * right. destruct Hbound as [->|Hb]; [lia|].
        cbn [after_drops set_msg_start_idx set_messages_token_sum
             messages_tokens_list msg_start_idx] in Hb. lia.
      * rewrite (truncate_loop_step fuel self c Hover Hnth).
        rewrite <- (after_drops_S self k c Hnth).
        destruct Hend as [[H1 H2]|(H1 & H2 & H3)]; [left; auto|right].
        split; [exact H1|]. split; [|exact H3].
        cbn [after_drops set_msg_start_idx set_messages_token_sum
             messages_tokens_list msg_start_idx] in H2. lia.
    + exists 0. rewrite after_drops_0. split; [intros j Hj; lia|].
      split; [auto|]. right. split; [exact Hover|]. split.
      * apply nth_error_None in Hnth. lia.
      * cbn [truncate_loop]. rewrite Hover, Hnth. reflexivity.
  - exists 0. rewrite after_drops_0. split; [intros j Hj; lia|].
    split; [auto|]. left. split; [exact Hover|].
    cbn [truncate_loop]. rewrite Hover. reflexivity.
Qed.

(** Dropping messages keeps the invariant. *)
Lemma after_drops_preserves (self : ReactPromptConstructor) (k : nat) :
  transcript_inv self -> transcript_inv (after_drops self k).
Proof.
  intros [Hal Hsum]. split; [exact Hal|].
  cbn [after_drops set_msg_start_idx set_messages_token_sum
       messages_tokens_list messages_token_sum msg_start_idx].
  rewrite fold_left_Qminus, Hsum.
  rewrite Nat.add_comm, <- skipn_skipn.
  set (l := skipn (msg_start_idx self) (messages_tokens_list self)).
  rewrite <- (firstn_skipn k l) at 1. rewrite Qsum_app. lra.
Qed.

Lemma over_context_true (self : ReactPromptConstructor) :
  over_context self = true <-> (ceiling self < tot_tokens self)%Q.
Proof.
  unfold over_context, ceiling. rewrite negb_true_iff.
  destruct (Qle_bool (tot_tokens self) (inject_Z (context_length (gen self)))) eqn:E.
  - apply Qle_bool_iff in E. split; [discriminate | intros H; lra].
  - split; [intros _|reflexivity].
    apply Qnot_le_lt. intros H. apply Qle_bool_iff in H. congruence.
Qed.

Lemma over_context_false (self : ReactPromptConstructor) :
  over_context self = false <-> (tot_tokens self <= ceiling self)%Q.
Proof.
  unfold over_context, ceiling. rewrite negb_false_iff. apply Qle_bool_iff.
Qed.

(** Under the invariant the total is the fixed part plus the live costs,
    none of which is negative. *)
Lemma tot_tokens_inv (self : ReactPromptConstructor) :
  transcript_inv self ->
  (tot_tokens self
   == fixed_tokens self
      + Qsum (skipn (msg_start_idx self) (messages_tokens_list self)))%Q /\
  (fixed_tokens self <= tot_tokens self)%Q.
Proof.
  intros [Hal Hsum]. unfold tot_tokens, fixed_tokens.
  assert (Hpos : (0 <= Qsum (skipn (msg_start_idx self) (messages_tokens_list self)))%Q).
  { apply Qsum_nonneg, Forall_skipn. rewrite Hal.
    apply Forall_map, Forall_forall. intros m _. apply msg_tokens_nonneg. }
  rewrite Hsum. split; lra.
Qed.

(** [get_limited_message_history] with enough fuel: it always comes back,
    either with the live slice or with the IndexError of the loop. *)
Lemma get_limited_message_history_spec (fuel : nat) (self : ReactPromptConstructor) :
  enough_fuel self <= fuel ->
  exists k,
    (forall j, j < k -> over_context (after_drops self j) = true) /\
    (k = 0 \/ msg_start_idx self + k <= length (messages_tokens_list self)) /\
    ((over_context (after_drops self k) = false /\
      get_limited_message_history fuel self
      = Some (Ok (skipn (msg_start_idx self + k) (messages self)),
              after_drops self k)) \/
     (over_context (after_drops self k) = true /\
      length (messages_tokens_list self) <= msg_start_idx self + k /\
      get_limited_message_history fuel self
      = Some (Raise IndexError, after_drops self k))).
Proof.
  intros Hfuel. unfold enough_fuel in Hfuel.
  destruct (truncate_loop_spec fuel self ltac:(lia)) as (k & Hbefore & Hbound & Hend).
  exists k. split; [exact Hbefore|]. split; [exact Hbound|].
  unfold get_limited_message_history.
  destruct Hend as [[H1 H2]|(H1 & H2 & H3)].
  - left. split; [exact H1|]. rewrite H2. reflexivity.
  - right. split; [exact H1|]. split; [exact H2|]. rewrite H3. reflexivity.
Qed.

(** More fuel than enough changes nothing. *)
Lemma get_limited_message_history_fuel (fuel : nat) (self : ReactPromptConstructor) :
  enough_fuel self <= fuel ->
  get_limited_message_history fuel self
  = get_limited_message_history (enough_fuel self) self.
Proof.
  intros Hfuel.
  destruct (get_limited_message_history_spec fuel self Hfuel)
    as (k & Hk & Hb & Hend).
  destruct (get_limited_message_history_spec (enough_fuel self) self (Nat.le_refl _))
    as (k' & Hk' & Hb' & Hend').
  assert (Hkk : k = k').
  { destruct (Nat.lt_trichotomy k k') as [Hlt|[Heq|Hgt]]; [|exact Heq|].
    - specialize (Hk' k Hlt).
      destruct Hend as [[H _]|(_ & Hlen & _)]; [congruence|]. lia.
    - specialize (Hk k' Hgt).
      destruct Hend' as [[H _]|(_ & Hlen & _)]; [congruence|]. lia. }
  subst k'.
  destruct Hend as [[H1 H2]|(H1 & _ & H2)];
    destruct Hend' as [[H1' H2']|(H1' & _ & H2')]; congruence.
Qed.

(** Truncation keeps the invariant, whichever way it ends, and keeps the
    cursor within the transcript. *)
Lemma get_limited_message_history_preserves (self : ReactPromptConstructor) :
  transcript_inv self -> cursor_ok self ->
  exists r self',
    get_limited_message_history (enough_fuel self) self = Some (r, self') /\
    transcript_inv self' /\ cursor_ok self'.
Proof.
  intros Hinv Hcur. pose proof (aligned_length self (proj1 Hinv)) as Hlen.
  destruct (get_limited_message_history_spec (enough_fuel self) self (Nat.le_refl _))
    as (k & _ & Hb & Hend).
  assert (Hc : cursor_ok (after_drops self k)).
  { unfold cursor_ok in *.
    cbn [after_drops set_msg_start_idx set_messages_token_sum messages msg_start_idx].
    lia. }
  destruct Hend as [[_ H]|(_ & _ & H)]; rewrite H; do 2 eexists;
    (split; [reflexivity|]); (split; [apply after_drops_preserves; exact Hinv | exact Hc]).
Qed.



(** Under the invariant the truncation returns whenever the fixed part
    alone fits the ceiling. *)
Lemma truncation_returns_when_overhead_fits (self : ReactPromptConstructor) :
  transcript_inv self -> cursor_ok self ->
  (fixed_tokens self <= ceiling self)%Q ->
  exists k,
    get_limited_message_history (enough_fuel self) self
    = Some (Ok (skipn (msg_start_idx self + k) (messages self)), after_drops self k).
Proof.
  intros Hinv Hcur Hfit.
  destruct (get_limited_message_history_spec (enough_fuel self) self (Nat.le_refl _))
    as (k & _ & Hb & Hend).
  exists k. destruct Hend as [[_ H]|(Hover & Hlen & _)]; [exact H|exfalso].
  apply (over_context_true (after_drops self k)) in Hover.
  destruct (tot_tokens_inv _ (after_drops_preserves self k Hinv)) as [Htot _].
  cbn [after_drops set_msg_start_idx set_messages_token_sum
       messages_tokens_list msg_start_idx] in Htot.
  rewrite skipn_all2 in Htot by lia.
  change (Qsum []) with 0%Q in Htot.
  change (ceiling (after_drops self k)) with (ceiling self) in Hover.
  change (fixed_tokens (after_drops self k)) with (fixed_tokens self) in Htot.
  lra.
Qed.

(** Under the invariant the truncation raises IndexError whenever the fixed
    part alone exceeds the ceiling: every message is dropped, and the loop
    then indexes the cost list at its length. *)
Lemma truncation_raises_when_overhead_exceeds (self : ReactPromptConstructor) :
  transcript_inv self -> cursor_ok self ->
  (ceiling self < fixed_tokens self)%Q ->
  get_limited_message_history (enough_fuel self) self
  = Some (Raise IndexError,
          after_drops self (length (messages self) - msg_start_idx self)).
Proof.
  intros Hinv Hcur Hover. pose proof (aligned_length self (proj1 Hinv)) as Hlen.
  destruct (get_limited_message_history_spec (enough_fuel self) self (Nat.le_refl _))
    as (k & _ & Hb & Hend).
  destruct Hend as [[Hfit _]|(_ & Hge & H)].
  - exfalso. apply (over_context_false (after_drops self k)) in Hfit.
    destruct (tot_tokens_inv _ (after_drops_preserves self k Hinv)) as [_ Hle].
    change (ceiling (after_drops self k)) with (ceiling self) in Hfit.
    change (fixed_tokens (after_drops self k)) with (fixed_tokens self) in Hle.
    lra.
  - unfold cursor_ok in Hcur.
    replace (length (messages self) - msg_start_idx self) with k by lia.
    exact H.
Qed.

(** C1, on the code.  A constructor whose system prompt and reply reserve
    alone exceed the context length: after one appended message the
    truncation drops that message, finds the total still over the ceiling,
    and raises IndexError with the cursor at the end of the transcript; it
    does not return the empty slice. *)
Theorem C1_truncation_raises_on_exhausted_transcript :
  let self :=
    snd (add_message (py "OBSERVATION: [1] link 'Home'") (py "user")
           (chat_react (py "You are an autonomous intelligent agent.")
                       (chat_config 384 256 0))) in
  transcript_inv self /\ cursor_ok self /\
  (ceiling self < fixed_tokens self)%Q /\
  get_limited_message_history (enough_fuel self) self
  = Some (Raise IndexError, after_drops self 1) /\
  msg_start_idx (after_drops self 1) = length (messages self) /\
  get_limited_message_history (enough_fuel self) self <> Some (Ok [], after_drops self 1).
Proof.
  cbv zeta.
  set (self := snd (add_message _ _ _)).
  assert (Hinv : transcript_inv self) by (split; [reflexivity | vm_compute; reflexivity]).
  assert (Hcur : cursor_ok self) by (unfold cursor_ok; simpl; lia).
  assert (Hover : (ceiling self < fixed_tokens self)%Q) by (vm_compute; reflexivity).
  pose proof (truncation_raises_when_overhead_exceeds self Hinv Hcur Hover) as Hrun.
  change (length (messages self) - msg_start_idx self) with 1 in Hrun.
  repeat split; try assumption.
  rewrite Hrun. discriminate.
Qed.

(* ================================================================== *)
(** * One step of the agent *)
(* ================================================================== *)

(** The keyword assertion does not look at the keywords: it fails exactly
    when there is a keyword at all and the text holds the characters [{k}]. *)
Lemma assert_keywords_spec (keywords : list str) (text : str) :
  assert_keywords keywords text
  = match keywords with
    | [] => Ok tt
    | _ :: _ => if str_in (py "{k}") text then Raise AssertionError else Ok tt
    end.
Proof.
  unfold assert_keywords. destruct keywords as [|k ks]; [reflexivity|].
  cbn [forallb]. destruct (str_in (py "{k}") text); cbn [negb andb]; [reflexivity|].
  replace (forallb (fun _ : str => true) ks) with true; [reflexivity|].
  induction ks as [|k' ks IH]; [reflexivity | exact IH].
Qed.

(** C7, on the code.  One step on the shipped instruction, with a budget
    that the fixed part fits and the new turn does not: [construct_thought]
    appends the turn and the observation and truncates both away, leaving
    the invariant intact with the cursor at the end; the [remove_obs] that
    follows pops the observation and subtracts its cost a second time, so
    that the running sum is negative, no longer the sum of the costs from
    the cursor onward, and the cursor lies beyond the transcript. *)
Theorem C7_remove_obs_after_full_truncation_breaks_invariant :
  let table := [ (py "http://localhost:7770", py "http://onestopmarket.com") ] in
  let self0 := with_objective (py "Find the price.")
                 (chat_react (py "You are an agent.") (chat_config 8 20 0)) in
  let trajectory :=
    [ {| observation_text :=
           py "[1744] link 'HP Inkjet Fax Machine' [1749] StaticText '$279.49'";
         page_url := py "http://localhost:7770/fax" |} ] in
  transcript_inv self0 /\ cursor_ok self0 /\
  match construct_thought table 3 trajectory (py "Find the price.")
                          (Some [py "None"]) self0 with
  | Some (Ok prompt, self1) =>
      prompt = Messages [ {| role := py "system"; name := None;
                             content := py "You are an agent." |};
                          {| role := py "user"; name := None;
                             content := py "Find the price." |} ] /\
      transcript_inv self1 /\ cursor_ok self1 /\
      length (messages self1) = 2 /\ msg_start_idx self1 = 2 /\
      fst (remove_obs self1) = Ok PyNone /\
      length (messages (snd (remove_obs self1))) = 1 /\
      (messages_token_sum (snd (remove_obs self1)) < 0)%Q /\
      ~ transcript_inv (snd (remove_obs self1)) /\
      ~ cursor_ok (snd (remove_obs self1))
  | _ => False
  end.
Proof.
  cbv zeta.
  split; [split; [reflexivity | vm_compute; reflexivity]|].
  split; [unfold cursor_ok; simpl; lia|].
  match goal with
  | |- match ?run with _ => _ end =>
      let v := eval vm_compute in run in change run with v
  end.
  cbv beta iota.
  split; [reflexivity|].
  split; [split; [reflexivity | vm_compute; reflexivity]|].
  split; [unfold cursor_ok; simpl; lia|].
  split; [reflexivity|]. split; [reflexivity|].
  split; [vm_compute; reflexivity|].
  split; [vm_compute; reflexivity|].
  split; [vm_compute; reflexivity|].
  split.
  - intros [_ Hsum]. vm_compute in Hsum. discriminate.
  - unfold cursor_ok. vm_compute. lia.
Qed.

(** C6, on the code.  The keyword assertion tests for the characters [{k}]
    and for nothing else.  On the shipped template, a previous-action text
    that holds [{objective}] is formatted into the current turn, the turn
    holds the placeholder, both assertions pass, and [construct_thought]
    goes on to append the turn and to return the prompt. *)
Theorem C6_keyword_assertion_misses_placeholders :
  (forall (keywords : list str) (k : str) (text : str),
      assert_keywords (k :: keywords) text
      = if str_in (py "{k}") text then Raise AssertionError else Ok tt) /\
  (let table := [ (py "http://localhost:7770", py "http://onestopmarket.com") ] in
   let self0 := with_objective (py "Find the price.")
                  (chat_react (py "You are an agent.") (chat_config 384 4096 0)) in
   let trajectory :=
     [ {| observation_text := py "[1744] link 'HP Inkjet Fax Machine'";
          page_url := py "http://localhost:7770/fax" |} ] in
   let history :=
     Some [ py "The previous prediction you issued was {objective}" ] in
   let current :=
     [newline] ++
     py "ERROR MESSAGE: The previous prediction you issued was {objective}" ++
     [newline] ++ py "URL: http://onestopmarket.com/fax" ++ [newline] in
   keywords (meta_data (instruction (base self0)))
   = [ py "url"; py "objective"; py "observation"; py "previous_action" ] /\
   current_turn table self0 trajectory history
   = Ok (current, py "[1744] link 'HP Inkjet Fax Machine'") /\
   str_in (py "{objective}") current = true /\
   assert_keywords (keywords (meta_data (instruction (base self0)))) current = Ok tt /\
   match construct_thought table 3 trajectory (py "Find the price.") history self0 with
   | Some (Ok (Messages prompt), self1) =>
       exists m, nth_error prompt 2 = Some m /\ content m = current
   | _ => False
   end).
Proof.
  split.
  - intros keywords k text. apply (assert_keywords_spec (k :: keywords) text).
  - cbv zeta. split; [reflexivity|].
    split; [vm_compute; reflexivity|].
    split; [vm_compute; reflexivity|].
    split; [vm_compute; reflexivity|].
    match goal with
    | |- match ?run with _ => _ end =>
        let v := eval vm_compute in run in change run with v
    end.
    cbv beta iota. eexists. split; reflexivity.
Qed.

(* ================================================================== *)
(** * Further properties: URL mapper *)
(* ================================================================== *)

(** X1.  A URL in which no string of the table occurs, local or real, is
    left as it is by both mapping directions. *)
Theorem X1_unmatched_url_is_left_alone (table : list (str * str)) (url : str) :
  Forall (fun e => str_in (fst e) url = false /\ str_in (snd e) url = false) table ->
  map_url_to_real table url = url /\ map_url_to_local table url = url.
Proof.
  intros H. split.
  - apply (map_url_no_match ToReal). eapply Forall_impl; [|exact H].
    intros e [He _]. exact He.
  - apply (map_url_no_match ToLocal). eapply Forall_impl; [|exact H].
    intros e [_ He]. exact He.
Qed.

Lemma X1_unmatched_url_is_left_alone_witness :
  let table := [ (py "http://localhost:7770", py "http://onestopmarket.com");
                 (py "http://localhost:9999", py "http://reddit.com") ] in
  map_url_to_real table (py "http://homepage.com/password.html")
  = py "http://homepage.com/password.html" /\
  map_url_to_local table (py "http://homepage.com/password.html")
  = py "http://homepage.com/password.html".
Proof.
  cbv zeta.
  apply (X1_unmatched_url_is_left_alone
           [ (py "http://localhost:7770", py "http://onestopmarket.com");
             (py "http://localhost:9999", py "http://reddit.com") ]
           (py "http://homepage.com/password.html")).
  repeat constructor.
Defined.

(** X2.  With a single table entry, a URL that starts with the entry's
    source string and does not hold it again is rewritten to the target
    string followed by the unchanged rest, in either direction. *)
Theorem X2_prefixed_url_is_rewritten
    (dir : direction) (e : str * str) (path : str) :
  source_of dir e <> [] ->
  str_in (source_of dir e) path = false ->
  map_url dir [e] (source_of dir e ++ path) = target_of dir e ++ path.
Proof.
  intros Hne Hpath.
  rewrite map_url_cons, map_url_nil.
  rewrite (str_in_startswith _ _ (str_startswith_app (source_of dir e) path)).
  rewrite str_replace_nonempty by exact Hne.
  rewrite replace_scan_occurrence by exact Hne.
  rewrite replace_scan_absent by exact Hpath. reflexivity.
Qed.

Lemma X2_prefixed_url_is_rewritten_witness :
  let entry := (py "http://localhost:7770", py "http://onestopmarket.com") in
  map_url ToLocal [entry] (source_of ToLocal entry ++ py "/office-products.html")
  = target_of ToLocal entry ++ py "/office-products.html".
Proof.
  cbv zeta.
  apply X2_prefixed_url_is_rewritten; [discriminate | vm_compute; reflexivity].
Defined.

(* ================================================================== *)
(** * Further properties: action extractor *)
(* ================================================================== *)

Lemma str_startswith_weaken (p x y : str) :
  str_startswith p x = true -> str_startswith p (x ++ y) = true.
Proof.
  intros H. apply str_startswith_split in H. rewrite H, <- app_assoc.
  apply str_startswith_app.
Qed.

Lemma str_in_middle (x a b : str) : str_in x (a ++ x ++ b) = true.
Proof. apply str_in_app_r, str_in_startswith, str_startswith_app. Qed.

Lemma lazy_group_sound (d t a : str) :
  lazy_group d t = Some a ->
  (exists post, t = a ++ d ++ post) /\
  no_newline a = true /\
  (d <> [] -> str_in d a = false).
Proof.
  revert a; induction t as [|c t IH]; intros a H; cbn [lazy_group] in H.
  - destruct (str_startswith d []) eqn:E; [|discriminate].
    inversion H; subst a. destruct d; [|discriminate].
    split; [exists []; reflexivity|]. split; [reflexivity|]. intros Hd; contradiction.
  - destruct (str_startswith d (c :: t)) eqn:E.
    + inversion H; subst a. split.
      * exists (skipn (length d) (c :: t)). apply str_startswith_split, E.
      * split; [reflexivity|]. intros Hd. destruct d; [contradiction|reflexivity].
    + destruct (Ascii.eqb c newline) eqn:Hc; [discriminate|].
      destruct (lazy_group d t) as [a'|] eqn:Hl; [|discriminate].
      inversion H; subst a. destruct (IH a' eq_refl) as ((post & Ht) & Hnl & Hin).
      split; [exists post; rewrite Ht; reflexivity|]. split.
      * cbn [no_newline forallb]. rewrite Hc. exact Hnl.
      * intros Hd. cbn [str_in].
        destruct (str_startswith d (c :: a')) eqn:E'; [|exact (Hin Hd)].
        apply (str_startswith_weaken _ _ (d ++ post)) in E'.
        cbn [app] in E'. rewrite <- Ht in E'. congruence.
Qed.

Lemma re_search_sound (d s a : str) :
  re_search d s = Some a ->
  (exists pre post, s = pre ++ d ++ a ++ d ++ post) /\
  no_newline a = true /\
  (d <> [] -> str_in d a = false).
Proof.
  induction s as [|c s IH]; intros H; cbn [re_search] in H.
  - destruct (str_startswith d []) eqn:E; [|discriminate].
    destruct (lazy_group d (skipn (length d) [])) as [g|] eqn:Hl; [|discriminate].
    inversion H; subst g.
    destruct (lazy_group_sound _ _ _ Hl) as ((post & Ht) & Hrest).
    split; [|exact Hrest]. exists [], post. cbn [app].
    rewrite <- Ht. apply str_startswith_split, E.
  - destruct (if str_startswith d (c :: s)
              then lazy_group d (skipn (length d) (c :: s)) else None)
      as [g|] eqn:Hl.
    + inversion H; subst g.
      destruct (str_startswith d (c :: s)) eqn:E; [|discriminate].
      destruct (lazy_group_sound _ _ _ Hl) as ((post & Ht) & Hrest).
      split; [|exact Hrest]. exists [], post. cbn [app].
      rewrite <- Ht. apply str_startswith_split, E.
    + destruct (IH H) as ((pre & post & Hs) & Hrest).
      split; [|exact Hrest]. exists (c :: pre), post. rewrite Hs. reflexivity.
Qed.

(** X3.  For a delimiter free of regular-expression metacharacters:
    whatever [_extract_action] returns stands in the reply between two
    occurrences of the delimiter, holds no newline and, for a non-empty
    delimiter, does not hold the delimiter. *)
Theorem X3_extracted_action_is_delimited
    (self : ReactPromptConstructor) (response a : str) :
  literal_delimiter (action_splitter (meta_data (instruction (base self)))) = true ->
  _extract_action self response = Ok a ->
  let d := action_splitter (meta_data (instruction (base self))) in
  (exists pre post, response = pre ++ d ++ a ++ d ++ post) /\
  no_newline a = true /\
  (d <> [] -> str_in d a = false).
Proof.
  intros _ H d. unfold _extract_action in H. fold d in H.
  destruct (re_search d response) as [g|] eqn:Hs; [|discriminate].
  inversion H; subst g. exact (re_search_sound d response a Hs).
Qed.

Lemma X3_extracted_action_is_delimited_witness :
  no_newline (py "click [1757]") = true /\
  str_in (py "`") (py "click [1757]") = false.
Proof.
  pose proof (X3_extracted_action_is_delimited
                (chat_react [] (chat_config 384 4096 0))
                (py "Thought: add it. Action: `click [1757]`")
                (py "click [1757]") eq_refl eq_refl) as (_ & Hnl & Hin).
  split; [exact Hnl | apply Hin; discriminate].
Defined.

Lemma lazy_group_single (c : ascii) (a post : str) :
  in_chars c a = false -> no_newline a = true ->
  lazy_group [c] (a ++ c :: post) = Some a.
Proof.
  induction a as [|x a IH]; intros Hc Hnl; cbn [app lazy_group str_startswith].
  - rewrite Ascii.eqb_refl. destruct post; reflexivity.
  - cbn [in_chars existsb] in Hc. apply orb_false_iff in Hc as [Hx Hc].
    rewrite Hx. cbn [andb].
    cbn [no_newline forallb] in Hnl. apply andb_true_iff in Hnl as [Hn Hnl].
    apply negb_true_iff in Hn. rewrite Hn.
    rewrite (IH Hc Hnl). reflexivity.
Qed.

Lemma re_search_single (c : ascii) (pre a post : str) :
  in_chars c pre = false -> in_chars c a = false -> no_newline a = true ->
  re_search [c] (pre ++ c :: a ++ c :: post) = Some a.
Proof.
  intros Hpre Ha Hnl. induction pre as [|x pre IH].
  - cbn [app re_search str_startswith length skipn].
    rewrite Ascii.eqb_refl.
    replace (str_startswith [] (a ++ c :: post)) with true
      by (destruct (a ++ c :: post); reflexivity).
    cbn [andb]. rewrite (lazy_group_single c a post Ha Hnl). reflexivity.
  - cbn [in_chars existsb] in Hpre. apply orb_false_iff in Hpre as [Hx Hpre].
    cbn [app]. rewrite re_search_cons_skip.
    + apply IH. exact Hpre.
    + cbn [str_startswith]. rewrite Hx. reflexivity.
Qed.

(** X4.  For a delimiter of one character that is no regular-expression
    metacharacter: an action that holds neither the delimiter nor a
    newline, wrapped in a pair of delimiters after a text without the
    delimiter, is extracted verbatim, whatever follows. *)
Theorem X4_wrapped_action_is_extracted
    (self : ReactPromptConstructor) (c : ascii) (pre a post : str) :
  action_splitter (meta_data (instruction (base self))) = [c] ->
  literal_delimiter [c] = true ->
  in_chars c pre = false -> in_chars c a = false -> no_newline a = true ->
  _extract_action self (pre ++ [c] ++ a ++ [c] ++ post) = Ok a.
Proof.
  intros Hd _ Hpre Ha Hnl. unfold _extract_action. rewrite Hd.
  cbn [app]. rewrite (re_search_single c pre a post Hpre Ha Hnl). reflexivity.
Qed.

Lemma X4_wrapped_action_is_extracted_witness :
  _extract_action (chat_react [] (chat_config 384 4096 0))
    (py "Thought: search. Action: `type [164] [CMU] [1]` and then `go_back`")
  = Ok (py "type [164] [CMU] [1]").
Proof.
  pose proof (X4_wrapped_action_is_extracted
                (chat_react [] (chat_config 384 4096 0)) "`"%char
                (py "Thought: search. Action: ") (py "type [164] [CMU] [1]")
                (py " and then `go_back`")
                eq_refl eq_refl eq_refl eq_refl eq_refl) as H.
  exact H.
Defined.

(** X5.  The three constructors extract the same action.  With the answer
    phrase as [__init__] sets it, the history-carrying extractor and the
    chain-of-thought one agree on every reply, error message included; the
    direct one returns the same action and raises on the same replies. *)
Theorem X5_extractors_agree (self : ReactPromptConstructor) (response : str) :
  answer_phrase self = answer_phrase_md (meta_data (instruction (base self))) ->
  CoT._extract_action (base self) response = _extract_action self response /\
  (forall a, Direct._extract_action (base self) response = Ok a
             <-> _extract_action self response = Ok a) /\
  ((exists msg, Direct._extract_action (base self) response
                = Raise (ActionParsingError msg))
   <-> (exists msg, _extract_action self response = Raise (ActionParsingError msg))).
Proof.
  intros Hphrase.
  unfold CoT._extract_action, Direct._extract_action, _extract_action.
  rewrite Hphrase.
  destruct (re_search (action_splitter (meta_data (instruction (base self)))) response)
    as [g|].
  - split; [reflexivity|]. split; [tauto|].
    split; intros [msg H]; discriminate.
  - split; [reflexivity|]. split.
    + intros a; split; discriminate.
    + split; intros _; eexists; reflexivity.
Qed.

Lemma X5_extractors_agree_witness :
  let self := chat_react [] (chat_config 384 4096 0) in
  CoT._extract_action (base self) (py "no delimiters here")
  = _extract_action self (py "no delimiters here").
Proof.
  exact (proj1 (X5_extractors_agree (chat_react [] (chat_config 384 4096 0))
                  (py "no delimiters here") eq_refl)).
Defined.

(** X6.  For a delimiter free of regular-expression metacharacters, every
    failure of an extractor is the parsing error, and its message holds the
    whole reply; for the history-carrying and the chain-of-thought
    constructor it holds the answer phrase as well. *)
Theorem X6_parsing_error_names_the_reply :
  (forall (self : ReactPromptConstructor) (response : str) (e : exn),
      literal_delimiter (action_splitter (meta_data (instruction (base self)))) = true ->
      _extract_action self response = Raise e ->
      exists msg, e = ActionParsingError msg /\
                  str_in response msg = true /\
                  str_in (answer_phrase self) msg = true) /\
  (forall (self : PromptConstructor) (response : str) (e : exn),
      literal_delimiter (action_splitter (meta_data (instruction self))) = true ->
      CoT._extract_action self response = Raise e ->
      exists msg, e = ActionParsingError msg /\
                  str_in response msg = true /\
                  str_in (answer_phrase_md (meta_data (instruction self))) msg = true) /\
  (forall (self : PromptConstructor) (response : str) (e : exn),
      literal_delimiter (action_splitter (meta_data (instruction self))) = true ->
      Direct._extract_action self response = Raise e ->
      exists msg, e = ActionParsingError msg /\ str_in response msg = true).
Proof.
  split; [|split].
  - intros self response e _. unfold _extract_action.
    destruct (re_search _ response); [discriminate|].
    match goal with
    | |- Raise (ActionParsingError ?m) = _ -> _ => intros H; exists m
    end.
    split; [congruence|]. split.
    + do 6 apply str_in_app_r. apply str_in_startswith, str_startswith_app.
    + do 2 apply str_in_app_r. apply str_in_startswith, str_startswith_app.
  - intros self response e _. unfold CoT._extract_action.
    destruct (re_search _ response); [discriminate|].
    match goal with
    | |- Raise (ActionParsingError ?m) = _ -> _ => intros H; exists m
    end.
    split; [congruence|]. split.
    + do 6 apply str_in_app_r. apply str_in_startswith, str_startswith_app.
    + do 2 apply str_in_app_r. apply str_in_startswith, str_startswith_app.
  - intros self response e _. unfold Direct._extract_action.
    destruct (re_search _ response); [discriminate|].
    match goal with
    | |- Raise (ActionParsingError ?m) = _ -> _ => intros H; exists m
    end.
    split; [congruence|].
    apply str_in_app_r, str_in_startswith.
    rewrite <- (app_nil_r response) at 2. apply str_startswith_app.
Qed.

Lemma X6_parsing_error_names_the_reply_witness :
  exists msg,
    _extract_action (chat_react [] (chat_config 384 4096 0)) (py "no delimiters here")
    = Raise (ActionParsingError msg) /\
    str_in (py "no delimiters here") msg = true /\
    str_in (py "Action: ") msg = true.
Proof.
  destruct (proj1 X6_parsing_error_names_the_reply
              (chat_react [] (chat_config 384 4096 0)) (py "no delimiters here")
              _ eq_refl eq_refl) as (msg & Hmsg & H1 & H2).
  exists msg. inversion Hmsg. repeat split; assumption.
Defined.

(** X7.  The URL mapping after the extraction adds no failure of its own:
    [extract_action] fails exactly as [_extract_action] does, and an
    extracted action in which no real URL of the table occurs is returned
    unchanged. *)
Theorem X7_extract_action_maps_only_urls
    (table : list (str * str)) (self : ReactPromptConstructor) (response : str) :
  (forall e, extract_action table self response = Raise e
             <-> _extract_action self response = Raise e) /\
  (forall a, _extract_action self response = Ok a ->
             Forall (fun entry => str_in (snd entry) a = false) table ->
             extract_action table self response = Ok a).
Proof.
  unfold extract_action. destruct (_extract_action self response) as [a|e0];
    cbn [res_bind].
  - split; [intros e; split; discriminate|].
    intros a' Ha Hfree; inversion Ha; subst a'.
    pose proof (map_url_no_match ToLocal table a Hfree) as Hm.
    cbn [map_url] in Hm. rewrite Hm. reflexivity.
  - split; [intros e; tauto|]. intros a; discriminate.
Qed.

Lemma X7_extract_action_maps_only_urls_witness :
  extract_action [ (py "http://localhost:7770", py "http://onestopmarket.com") ]
    (chat_react [] (chat_config 384 4096 0)) (py "Action: `click [1757]`")
  = Ok (py "click [1757]").
Proof.
  apply (proj2 (X7_extract_action_maps_only_urls
                  [ (py "http://localhost:7770", py "http://onestopmarket.com") ]
                  (chat_react [] (chat_config 384 4096 0))
                  (py "Action: `click [1757]`")));
    [reflexivity | repeat constructor].
Defined.

(* ================================================================== *)
(** * Further properties: the transcript *)
(* ================================================================== *)

(** X8.  [__init__] of the history-carrying constructor succeeds only for
    an OpenAI provider in chat mode.  Without [openai] in the provider it
    raises NotImplementedError, in completion mode TypeError (the token
    count indexes the characters of the text prompt), and in any other mode
    ValueError. *)
Theorem X8_react_init_needs_openai_chat (b : PromptConstructor) :
  match react_init b with
  | Ok self =>
      str_in (py "openai") (provider (lm_config b)) = true /\
      mode (lm_config b) = py "chat" /\ base self = b
  | Raise e =>
      (str_in (py "openai") (provider (lm_config b)) = false /\
       e = NotImplementedError) \/
      (str_in (py "openai") (provider (lm_config b)) = true /\
       mode (lm_config b) = py "completion" /\ e = TypeError) \/
      (str_in (py "openai") (provider (lm_config b)) = true /\
       mode (lm_config b) <> py "chat" /\
       mode (lm_config b) <> py "completion" /\ e = ValueError)
  end.
Proof.
  unfold react_init, get_lm_api_initialize.
  destruct (str_in (py "openai") (provider (lm_config b))) eqn:Hp;
    [|left; auto].
  destruct (str_eqb (mode (lm_config b)) (py "chat")) eqn:Hchat.
  - apply str_eqb_eq in Hchat. cbn. auto.
  - assert (Hnc : mode (lm_config b) <> py "chat").
    { intros H. apply str_eqb_eq in H. congruence. }
    destruct (str_eqb (mode (lm_config b)) (py "completion")) eqn:Hcomp.
    + apply str_eqb_eq in Hcomp.
      cbn -[example_text py].
      destruct (intro (instruction b)); cbn -[example_text py]; right; left; auto.
    + cbn [res_bind]. right; right. repeat split; auto.
      intros H. apply str_eqb_eq in H. congruence.
Qed.

Lemma example_messages_cons (e : str * str) (exs : list (str * str)) :
  example_messages (e :: exs)
  = {| role := py "system"; name := Some (py "example_user"); content := fst e |}
    :: {| role := py "system"; name := Some (py "example_assistant");
          content := snd e |}
    :: example_messages exs.
Proof. reflexivity. Qed.

Lemma list_sum_example_messages (exs : list (str * str)) :
  list_sum (map (fun m => length (content m)) (example_messages exs))
  = list_sum (map (fun e => length (fst e) + length (snd e)) exs).
Proof.
  induction exs as [|e exs IH]; [reflexivity|].
  rewrite example_messages_cons. unfold list_sum in *.
  cbn [map fold_right content fst snd]. rewrite IH. apply Nat.add_assoc.
Qed.

Lemma length_example_messages (exs : list (str * str)) :
  length (example_messages exs) = 2 * length exs.
Proof.
  induction exs as [|e exs IH]; [reflexivity|].
  rewrite example_messages_cons. cbn [length]. rewrite IH. lia.
Qed.

(** X9.  A constructor that [__init__] has built starts with an empty
    transcript that satisfies the invariant, with the cursor at 0; its
    system prompt has one message for the introduction and two for each
    few-shot example, and its token count is a quarter of the characters
    of the introduction and of the examples. *)
Theorem X9_fresh_constructor_state (b : PromptConstructor) (self : ReactPromptConstructor) :
  react_init b = Ok self ->
  messages self = [] /\ msg_start_idx self = 0 /\
  transcript_inv self /\ cursor_ok self /\
  (exists l, sys_prompt self = Messages l /\
             length l = 1 + 2 * length (examples (instruction b))) /\
  sys_tokens self
  = (inject_Z (Z.of_nat (length (intro (instruction b))
                         + list_sum (map (fun e => length (fst e) + length (snd e))
                                         (examples (instruction b))))%nat) / 4)%Q.
Proof.
  unfold react_init, get_lm_api_initialize.
  destruct (str_in (py "openai") (provider (lm_config b))); [|discriminate].
  destruct (str_eqb (mode (lm_config b)) (py "chat")).
  - cbn [res_bind count_sys_tokens]. intros [= <-].
    cbn [messages msg_start_idx sys_prompt sys_tokens].
    split; [reflexivity|]. split; [reflexivity|].
    split; [split; [reflexivity | reflexivity]|].
    split; [unfold cursor_ok; cbn; lia|]. split.
    + eexists. split; [reflexivity|]. cbn [length].
      rewrite length_example_messages. reflexivity.
    + cbn [map list_sum content]. rewrite list_sum_example_messages. reflexivity.
  - destruct (str_eqb (mode (lm_config b)) (py "completion")); [|discriminate].
    cbn -[example_text py]. destruct (intro (instruction b)); discriminate.
Qed.

Lemma X9_fresh_constructor_state_witness :
  let b := {| instruction := react_prompt (py "You are an agent.")
                               [ (py "OBSERVATION: [1]", py "Action: `click [1]`") ];
              lm_config := chat_config 384 4096 0;
              tokenizer := char_tokenizer |} in
  exists self, react_init b = Ok self /\ transcript_inv self /\
               sys_tokens self = (inject_Z 52 / 4)%Q.
Proof.
  cbv zeta. eexists. split; [reflexivity|].
  match goal with
  | |- transcript_inv ?s /\ _ =>
      pose proof (X9_fresh_constructor_state
                    {| instruction := react_prompt (py "You are an agent.")
                                        [ (py "OBSERVATION: [1]", py "Action: `click [1]`") ];
                       lm_config := chat_config 384 4096 0;
                       tokenizer := char_tokenizer |} s eq_refl)
        as (_ & _ & Hinv & _ & _ & Htok)
  end.
  split; [exact Hinv | exact Htok].
Defined.

(** X10.  [add_message] appends exactly one message, with the given role
    and content, never raises, and keeps the invariant and the cursor
    within the transcript. *)
Theorem X10_add_message_keeps_invariant
    (msg role : str) (self : ReactPromptConstructor) :
  transcript_inv self -> cursor_ok self ->
  fst (add_message msg role self) = Ok PyNone /\
  messages (snd (add_message msg role self))
  = messages self ++ [ {| role := role; name := None; content := msg |} ] /\
  msg_start_idx (snd (add_message msg role self)) = msg_start_idx self /\
  transcript_inv (snd (add_message msg role self)) /\
  cursor_ok (snd (add_message msg role self)).
Proof.
  intros Hinv Hcur.
  destruct (add_message_preserves msg role self Hinv Hcur) as [H1 H2].
  split; [reflexivity|]. split; [reflexivity|]. split; [reflexivity|].
  split; assumption.
Qed.

Lemma X10_add_message_keeps_invariant_witness :
  transcript_inv
    (snd (add_message (py "Thought: click the link. Action: `click [1]`")
            (py "assistant") (chat_react (py "You are an agent.")
                                         (chat_config 384 4096 0)))).
Proof.
  apply (X10_add_message_keeps_invariant
           (py "Thought: click the link. Action: `click [1]`") (py "assistant")
           (chat_react (py "You are an agent.") (chat_config 384 4096 0))).
  - split; [reflexivity | vm_compute; reflexivity].
  - unfold cursor_ok. simpl. lia.
Defined.

(** X11.  Appending an observation and calling [remove_obs] restores the
    transcript: the message list, the cost list and the cursor are as
    before, and so is the running sum. *)
Theorem X11_remove_obs_undoes_appended_observation
    (obs : str) (self : ReactPromptConstructor) :
  let appended := snd (add_message (py "OBSERVATION:" ++ obs) (py "user") self) in
  fst (remove_obs appended) = Ok PyNone /\
  messages (snd (remove_obs appended)) = messages self /\
  messages_tokens_list (snd (remove_obs appended)) = messages_tokens_list self /\
  msg_start_idx (snd (remove_obs appended)) = msg_start_idx self /\
  (messages_token_sum (snd (remove_obs appended)) == messages_token_sum self)%Q.
Proof.
  cbv zeta. rewrite add_message_run.
  cbv beta iota delta
    [remove_obs pop_tokens bind get modify ret raise fst snd
     messages messages_tokens_list messages_token_sum msg_start_idx
     set_messages set_messages_tokens_list set_messages_token_sum].
  rewrite last_opt_snoc.
  cbv beta iota delta [role content].
  rewrite str_eqb_refl, str_startswith_app.
  cbv beta iota delta
    [andb fst snd messages messages_tokens_list messages_token_sum msg_start_idx
     set_messages set_messages_tokens_list set_messages_token_sum].
  rewrite last_opt_snoc.
  cbv beta iota delta
    [fst snd messages messages_tokens_list messages_token_sum msg_start_idx].
  rewrite !removelast_last.
  split; [reflexivity|]. split; [reflexivity|]. split; [reflexivity|].
  split; [reflexivity|]. lra.
Qed.

(** X12.  While the cursor stands before the last message, [remove_obs]
    does not raise and keeps the invariant and the cursor within the
    transcript. *)
Theorem X12_remove_obs_keeps_invariant_before_cursor_end
    (self : ReactPromptConstructor) :
  transcript_inv self -> msg_start_idx self < length (messages self) ->
  fst (remove_obs self) = Ok PyNone /\
  transcript_inv (snd (remove_obs self)) /\
  cursor_ok (snd (remove_obs self)).
Proof.
  intros Hinv Hlt. split.
  - apply remove_obs_nonempty_returns; [|exact (proj1 Hinv)].
    destruct (messages self); [simpl in Hlt; lia | discriminate].
  - apply remove_obs_preserves; assumption.
Qed.

Lemma X12_remove_obs_keeps_invariant_before_cursor_end_witness :
  transcript_inv
    (snd (remove_obs
            (snd (add_message (py "OBSERVATION: [1] link") (py "user")
                    (chat_react (py "You are an agent.")
                                (chat_config 384 4096 0)))))).
Proof.
  apply (X12_remove_obs_keeps_invariant_before_cursor_end
           (snd (add_message (py "OBSERVATION: [1] link") (py "user")
                   (chat_react (py "You are an agent.")
                               (chat_config 384 4096 0))))).
  - split; [reflexivity | vm_compute; reflexivity].
  - simpl. lia.
Defined.

(** The state truncation leaves behind. *)
Lemma truncation_state (self : ReactPromptConstructor) :
  transcript_inv self -> cursor_ok self ->
  exists r self',
    get_limited_message_history (enough_fuel self) self = Some (r, self') /\
    messages self' = messages self /\
    messages_tokens_list self' = messages_tokens_list self /\
    msg_start_idx self <= msg_start_idx self' <= length (messages self) /\
    transcript_inv self'.
Proof.
  intros Hinv Hcur. pose proof (aligned_length self (proj1 Hinv)) as Hlen.
  destruct (get_limited_message_history_spec (enough_fuel self) self (Nat.le_refl _))
    as (k & _ & Hb & Hend).
  unfold cursor_ok in Hcur.
  destruct Hend as [[_ H]|(_ & _ & H)]; rewrite H; do 2 eexists;
    (split; [reflexivity|]); (split; [reflexivity|]); (split; [reflexivity|]);
    (split; [|apply after_drops_preserves, Hinv]);
    cbn [after_drops set_msg_start_idx set_messages_token_sum msg_start_idx]; lia.
Qed.

(** X13.  Truncation comes back on every state that satisfies the
    invariant, and whichever way it ends it leaves the message list and the
    cost list untouched, moves the cursor forward only and not beyond the
    end, and keeps the invariant. *)
Theorem X13_truncation_keeps_invariant (self : ReactPromptConstructor) :
  transcript_inv self -> cursor_ok self ->
  exists r self',
    get_limited_message_history (enough_fuel self) self = Some (r, self') /\
    messages self' = messages self /\
    messages_tokens_list self' = messages_tokens_list self /\
    msg_start_idx self <= msg_start_idx self' <= length (messages self) /\
    transcript_inv self'.
Proof. exact (truncation_state self). Qed.

Lemma X13_truncation_keeps_invariant_witness :
  let self := snd (add_message (py "OBSERVATION: [1] link") (py "user")
                     (chat_react (py "You are an agent.") (chat_config 8 10 0))) in
  exists r self',
    get_limited_message_history (enough_fuel self) self = Some (r, self') /\
    transcript_inv self'.
Proof.
  cbv zeta.
  destruct (X13_truncation_keeps_invariant
              (snd (add_message (py "OBSERVATION: [1] link") (py "user")
                      (chat_react (py "You are an agent.") (chat_config 8 10 0)))))
    as (r & self' & Hrun & _ & _ & _ & Hinv).
  - split; [reflexivity | vm_compute; reflexivity].
  - unfold cursor_ok. simpl. lia.
  - exists r, self'. split; assumption.
Defined.

Lemma truncate_loop_fits (fuel : nat) (self : ReactPromptConstructor) :
  over_context self = false -> truncate_loop fuel self = Some (Ok tt, self).
Proof. intros H. destruct fuel; cbn [truncate_loop]; rewrite H; reflexivity. Qed.

(** X14.  Truncation is idempotent: right after a call that returned a
    slice, a second call drops nothing, returns the same slice and leaves
    the state as the first call left it. *)
Theorem X14_truncation_is_idempotent
    (self self' : ReactPromptConstructor) (history : list message) (fuel : nat) :
  get_limited_message_history (enough_fuel self) self = Some (Ok history, self') ->
  get_limited_message_history fuel self' = Some (Ok history, self').
Proof.
  intros Hrun.
  destruct (get_limited_message_history_spec (enough_fuel self) self (Nat.le_refl _))
    as (k & _ & _ & [[Hfit H]|(_ & _ & H)]); rewrite H in Hrun;
    [|discriminate].
  injection Hrun as <- <-.
  unfold get_limited_message_history.
  rewrite (truncate_loop_fits fuel _ Hfit). reflexivity.
Qed.

Lemma X14_truncation_is_idempotent_witness :
  let self :=
    snd (add_message (repeat "a"%char 120) (py "user")
      (snd (add_message (repeat "a"%char 80) (py "user")
        (snd (add_message (repeat "a"%char 40) (py "user")
          (chat_react (repeat "s"%char 20) (chat_config 5 40 0))))))) in
  get_limited_message_history 0 (after_drops self 2)
  = Some (Ok [ {| role := py "user"; name := None; content := repeat "a"%char 120 |} ],
          after_drops self 2).
Proof.
  cbv zeta.
  apply (X14_truncation_is_idempotent
           (snd (add_message (repeat "a"%char 120) (py "user")
             (snd (add_message (repeat "a"%char 80) (py "user")
               (snd (add_message (repeat "a"%char 40) (py "user")
                 (chat_react (repeat "s"%char 20) (chat_config 5 40 0)))))))) ).
  vm_compute. reflexivity.
Defined.

(** X15.  On a state that satisfies the invariant, a slice that truncation
    returns fits the budget: the system prompt, the objective and the reply
    reserve together with the costs of the returned messages do not exceed
    the context length. *)
Theorem X15_returned_history_fits_the_context
    (self self' : ReactPromptConstructor) (history : list message) :
  transcript_inv self ->
  get_limited_message_history (enough_fuel self) self = Some (Ok history, self') ->
  (fixed_tokens self + Qsum (map (fun m => msg_tokens (content m)) history)
   <= ceiling self)%Q.
Proof.
  intros Hinv Hrun.
  destruct (get_limited_message_history_spec (enough_fuel self) self (Nat.le_refl _))
    as (k & _ & _ & [[Hfit H]|(_ & _ & H)]); rewrite H in Hrun;
    [|discriminate].
  injection Hrun as <- <-.
  apply (over_context_false (after_drops self k)) in Hfit.
  destruct (tot_tokens_inv _ (after_drops_preserves self k Hinv)) as [Htot _].
  cbn [after_drops set_msg_start_idx set_messages_token_sum
       messages_tokens_list msg_start_idx] in Htot.
  rewrite (proj1 Hinv), skipn_map in Htot.
  change (ceiling (after_drops self k)) with (ceiling self) in Hfit.
  change (fixed_tokens (after_drops self k)) with (fixed_tokens self) in Htot.
  rewrite <- Htot. exact Hfit.
Qed.

Lemma X15_returned_history_fits_the_context_witness :
  let self :=
    snd (add_message (repeat "a"%char 120) (py "user")
      (snd (add_message (repeat "a"%char 80) (py "user")
        (snd (add_message (repeat "a"%char 40) (py "user")
          (chat_react (repeat "s"%char 20) (chat_config 5 40 0))))))) in
  (fixed_tokens self + Qsum [msg_tokens (repeat "a"%char 120)] <= ceiling self)%Q.
Proof.
  cbv zeta.
  apply (X15_returned_history_fits_the_context
           (snd (add_message (repeat "a"%char 120) (py "user")
             (snd (add_message (repeat "a"%char 80) (py "user")
               (snd (add_message (repeat "a"%char 40) (py "user")
                 (chat_react (repeat "s"%char 20) (chat_config 5 40 0))))))))
           (after_drops
              (snd (add_message (repeat "a"%char 120) (py "user")
                (snd (add_message (repeat "a"%char 80) (py "user")
                  (snd (add_message (repeat "a"%char 40) (py "user")
                    (chat_react (repeat "s"%char 20) (chat_config 5 40 0)))))))) 2)
           [ {| role := py "user"; name := None; content := repeat "a"%char 120 |} ]).
  - split; [reflexivity | vm_compute; reflexivity].
  - vm_compute. reflexivity.
Defined.

(** X16.  On a state that satisfies the invariant, truncation raises
    exactly when the system prompt, the objective and the reply reserve
    alone exceed the context length; the exception is then IndexError, and
    otherwise a slice is returned. *)
Theorem X16_truncation_raises_iff_overhead_exceeds (self : ReactPromptConstructor) :
  transcript_inv self -> cursor_ok self ->
  ((exists e self',
       get_limited_message_history (enough_fuel self) self = Some (Raise e, self'))
   <-> (ceiling self < fixed_tokens self)%Q) /\
  (forall e self',
      get_limited_message_history (enough_fuel self) self = Some (Raise e, self') ->
      e = IndexError /\ msg_start_idx self' = length (messages self)).
Proof.
  intros Hinv Hcur.
  assert (Hcases : (fixed_tokens self <= ceiling self)%Q
                   \/ (ceiling self < fixed_tokens self)%Q).
  { destruct (Qlt_le_dec (ceiling self) (fixed_tokens self)); auto. }
  split; [split|].
  - intros (e & self' & Hrun).
    destruct Hcases as [Hfit|Hover]; [|exact Hover].
    destruct (truncation_returns_when_overhead_fits self Hinv Hcur Hfit) as [k Hk].
    rewrite Hk in Hrun. discriminate.
  - intros Hover. do 2 eexists.
    apply (truncation_raises_when_overhead_exceeds self Hinv Hcur Hover).
  - intros e self' Hrun.
    destruct Hcases as [Hfit|Hover].
    + destruct (truncation_returns_when_overhead_fits self Hinv Hcur Hfit) as [k Hk].
      rewrite Hk in Hrun. discriminate.
    + rewrite (truncation_raises_when_overhead_exceeds self Hinv Hcur Hover) in Hrun.
      injection Hrun as <- <-. split; [reflexivity|].
      unfold cursor_ok in Hcur.
      cbn [after_drops set_msg_start_idx set_messages_token_sum msg_start_idx]. lia.
Qed.

Lemma X16_truncation_raises_iff_overhead_exceeds_witness :
  let self :=
    snd (add_message (py "OBSERVATION: [1] link 'Home'") (py "user")
           (chat_react (py "You are an autonomous intelligent agent.")
                       (chat_config 384 256 0))) in
  exists e self',
    get_limited_message_history (enough_fuel self) self = Some (Raise e, self').
Proof.
  cbv zeta.
  apply (proj1 (X16_truncation_raises_iff_overhead_exceeds
                  (snd (add_message (py "OBSERVATION: [1] link 'Home'") (py "user")
                          (chat_react (py "You are an autonomous intelligent agent.")
                                      (chat_config 384 256 0))))
                  ltac:(split; [reflexivity | vm_compute; reflexivity])
                  ltac:(unfold cursor_ok; simpl; lia))).
  vm_compute. reflexivity.
Defined.

(* ================================================================== *)
(** * Further properties: one step of the history-carrying constructor *)
(* ================================================================== *)

(** X17.  [construct_thought] on an empty trajectory raises IndexError; on
    a meta-data dict without [action_history] it raises KeyError, and on an
    empty action history IndexError.  In each case nothing has been
    appended to the transcript. *)
Theorem X17_construct_thought_rejects_empty_inputs
    (table : list (str * str)) (fuel : nat) (intent_arg : str)
    (self : ReactPromptConstructor) :
  (forall history,
      construct_thought table fuel [] intent_arg history self
      = Some (Raise IndexError, self)) /\
  (forall init state_info,
      construct_thought table fuel (init ++ [state_info]) intent_arg None self
      = Some (Raise KeyError, self)) /\
  (forall init state_info,
      construct_thought table fuel (init ++ [state_info]) intent_arg (Some []) self
      = Some (Raise IndexError, self)).
Proof.
  split; [|split].
  - intros history. reflexivity.
  - intros init state_info. unfold construct_thought, current_turn.
    rewrite last_opt_snoc. reflexivity.
  - intros init state_info. unfold construct_thought, current_turn.
    rewrite last_opt_snoc. reflexivity.
Qed.

(** What [construct_thought] does once the current turn is formatted. *)
Lemma construct_thought_run
    (table : list (str * str)) (fuel : nat) (trajectory : list StateInfo)
    (intent_arg : str) (history : option (list str))
    (self : ReactPromptConstructor) (current obs : str) :
  current_turn table self trajectory history = Ok (current, obs) ->
  length (messages_tokens_list self) + 3 <= fuel ->
  let appended :=
    snd (add_message (py "OBSERVATION: " ++ [newline] ++ obs) (py "user")
           (snd (add_message current (py "user") self))) in
  construct_thought table fuel trajectory intent_arg history self
  = match api_add (sys_prompt self) (intent self) with
    | Raise e => Some (Raise e, appended)
    | Ok prompt =>
        match get_limited_message_history (enough_fuel appended) appended with
        | None => None
        | Some (Raise e, self') => Some (Raise e, self')
        | Some (Ok live, self') => Some (api_add prompt (Messages live), self')
        end
    end.
Proof.
  intros Hturn Hfuel appended. unfold construct_thought. rewrite Hturn.
  fold appended.
  change (sys_prompt appended) with (sys_prompt self).
  change (intent appended) with (intent self).
  destruct (api_add (sys_prompt self) (intent self)); [|reflexivity].
  rewrite (get_limited_message_history_fuel fuel appended); [reflexivity|].
  unfold enough_fuel, appended. rewrite !add_message_run.
  cbn [snd set_messages set_messages_tokens_list set_messages_token_sum
       messages_tokens_list msg_start_idx].
  rewrite !length_app. simpl. lia.
Qed.

(** X18.  Until the agent has stored the objective as a message list, a
    step fails: in chat mode the system prompt is a list and the initial
    [intent] is a text, so their sum raises TypeError - after the turn and
    the observation have been appended to the transcript. *)
Theorem X18_construct_thought_needs_a_list_intent
    (table : list (str * str)) (fuel : nat) (trajectory : list StateInfo)
    (intent_arg : str) (history : option (list str))
    (self : ReactPromptConstructor) (current obs : str)
    (l : list message) (t : str) :
  sys_prompt self = Messages l -> intent self = Text t ->
  current_turn table self trajectory history = Ok (current, obs) ->
  construct_thought table fuel trajectory intent_arg history self
  = Some (Raise TypeError,
          snd (add_message (py "OBSERVATION: " ++ [newline] ++ obs) (py "user")
                 (snd (add_message current (py "user") self)))).
Proof.
  intros Hsys Hint Hturn. unfold construct_thought. rewrite Hturn.
  change (sys_prompt (snd (add_message (py "OBSERVATION: " ++ [newline] ++ obs)
                             (py "user") (snd (add_message current (py "user") self)))))
    with (sys_prompt self).
  change (intent (snd (add_message (py "OBSERVATION: " ++ [newline] ++ obs)
                         (py "user") (snd (add_message current (py "user") self)))))
    with (intent self).
  rewrite Hsys, Hint. reflexivity.
Qed.

Lemma X18_construct_thought_needs_a_list_intent_witness :
  let self := chat_react (py "You are an agent.") (chat_config 384 4096 0) in
  let trajectory := [ {| observation_text := py "[1] link 'Home'";
                         page_url := py "http://localhost:7770/" |} ] in
  exists self',
    construct_thought [] 5 trajectory (py "Find the price.") (Some [py "None"]) self
    = Some (Raise TypeError, self') /\
    length (messages self') = 2.
Proof.
  cbv zeta. eexists. split.
  - eapply (X18_construct_thought_needs_a_list_intent
             [] 5 [ {| observation_text := py "[1] link 'Home'";
                       page_url := py "http://localhost:7770/" |} ]
             (py "Find the price.") (Some [py "None"])
             (chat_react (py "You are an agent.") (chat_config 384 4096 0)));
      [reflexivity | reflexivity | vm_compute; reflexivity].
  - reflexivity.
Defined.

(** X19.  With fuel for every message, [construct_thought] always comes
    back, and whether it returns a prompt or raises, it leaves a state
    that satisfies the invariant with the cursor within the transcript. *)
Theorem X19_construct_thought_keeps_invariant
    (table : list (str * str)) (fuel : nat) (trajectory : list StateInfo)
    (intent_arg : str) (history : option (list str))
    (self : ReactPromptConstructor) :
  transcript_inv self -> cursor_ok self ->
  length (messages_tokens_list self) + 3 <= fuel ->
  exists r self',
    construct_thought table fuel trajectory intent_arg history self = Some (r, self') /\
    transcript_inv self' /\ cursor_ok self'.
Proof.
  intros Hinv Hcur Hfuel.
  destruct (current_turn table self trajectory history) as [[current obs]|e] eqn:Hturn.
  - rewrite (construct_thought_run table fuel trajectory intent_arg history self
               current obs Hturn Hfuel).
    cbv zeta.
    destruct (add_message_preserves current (py "user") self Hinv Hcur) as [Hi1 Hc1].
    destruct (add_message_preserves (py "OBSERVATION: " ++ [newline] ++ obs) (py "user")
                _ Hi1 Hc1) as [Hi2 Hc2].
    destruct (api_add (sys_prompt self) (intent self)) as [prompt|e].
    + destruct (get_limited_message_history_preserves _ Hi2 Hc2)
        as (r & self' & Hrun & Hi3 & Hc3).
      rewrite Hrun. destruct r; do 2 eexists; (split; [reflexivity|]); auto.
    + do 2 eexists. split; [reflexivity|]. auto.
  - unfold construct_thought. rewrite Hturn.
    do 2 eexists. split; [reflexivity|]. auto.
Qed.

Lemma X19_construct_thought_keeps_invariant_witness :
  let self := with_objective (py "Find the price.")
                (chat_react (py "You are an agent.") (chat_config 8 20 0)) in
  let trajectory := [ {| observation_text := py "[1] link 'Home'";
                         page_url := py "http://localhost:7770/" |} ] in
  exists r self',
    construct_thought [] 3 trajectory (py "Find the price.") (Some [py "None"]) self
    = Some (r, self') /\
    transcript_inv self'.
Proof.
  cbv zeta.
  destruct (X19_construct_thought_keeps_invariant
              [] 3 [ {| observation_text := py "[1] link 'Home'";
                        page_url := py "http://localhost:7770/" |} ]
              (py "Find the price.") (Some [py "None"])
              (with_objective (py "Find the price.")
                 (chat_react (py "You are an agent.") (chat_config 8 20 0))))
    as (r & self' & Hrun & Hinv & _).
  - split; [reflexivity | vm_compute; reflexivity].
  - unfold cursor_ok. simpl. lia.
  - simpl. lia.
  - exists r, self'. split; assumption.
Defined.

(** After a formatted turn, whatever the outcome of the step, the
    transcript is the old one followed by the turn and the observation. *)
Lemma construct_thought_appends
    (table : list (str * str)) (fuel : nat) (trajectory : list StateInfo)
    (intent_arg : str) (history : option (list str))
    (self self' : ReactPromptConstructor) (current obs : str)
    (r : res api_input) :
  transcript_inv self -> cursor_ok self ->
  length (messages_tokens_list self) + 3 <= fuel ->
  current_turn table self trajectory history = Ok (current, obs) ->
  construct_thought table fuel trajectory intent_arg history self = Some (r, self') ->
  messages self'
  = (messages self ++ [ {| role := py "user"; name := None; content := current |} ])
    ++ [ {| role := py "user"; name := None;
            content := py "OBSERVATION: " ++ [newline] ++ obs |} ] /\
  msg_start_idx self <= msg_start_idx self' /\
  transcript_inv self' /\ cursor_ok self'.
Proof.
  intros Hinv Hcur Hfuel Hturn Hrun.
  rewrite (construct_thought_run table fuel trajectory intent_arg history self
             current obs Hturn Hfuel) in Hrun.
  cbv zeta in Hrun.
  destruct (add_message_preserves current (py "user") self Hinv Hcur) as [Hi1 Hc1].
  destruct (add_message_preserves (py "OBSERVATION: " ++ [newline] ++ obs) (py "user")
              _ Hi1 Hc1) as [Hi2 Hc2].
  set (appended := snd (add_message (py "OBSERVATION: " ++ [newline] ++ obs) (py "user")
                          (snd (add_message current (py "user") self)))) in *.
  assert (Hm : messages appended
               = (messages self
                  ++ [ {| role := py "user"; name := None; content := current |} ])
                 ++ [ {| role := py "user"; name := None;
                         content := py "OBSERVATION: " ++ [newline] ++ obs |} ])
    by reflexivity.
  assert (Hidx : msg_start_idx appended = msg_start_idx self) by reflexivity.
  destruct (api_add (sys_prompt self) (intent self)) as [prompt|e].
  - destruct (truncation_state appended Hi2 Hc2)
      as (r' & s & Hs & Hms & _ & Hcs & His).
    rewrite Hs in Hrun.
    assert (Hself : s = self') by (destruct r'; congruence).
    subst s. rewrite Hms. split; [exact Hm|]. split; [lia|]. split; [exact His|].
    unfold cursor_ok. rewrite Hms. lia.
  - injection Hrun as _ <-. split; [exact Hm|]. split; [lia|]. auto.
Qed.

(** X20.  When the fixed part fits the context, a step with a list-valued
    system prompt and objective returns the prompt: the system prompt, the
    objective, and the transcript from the new cursor on, the transcript
    being the old one followed by the turn and the tagged observation. *)
Theorem X20_construct_thought_returns_the_live_prompt
    (table : list (str * str)) (fuel : nat) (trajectory : list StateInfo)
    (intent_arg : str) (history : option (list str))
    (self : ReactPromptConstructor) (current obs : str)
    (system objective : list message) :
  transcript_inv self -> cursor_ok self ->
  length (messages_tokens_list self) + 3 <= fuel ->
  sys_prompt self = Messages system -> intent self = Messages objective ->
  current_turn table self trajectory history = Ok (current, obs) ->
  (fixed_tokens self <= ceiling self)%Q ->
  let transcript :=
    messages self
    ++ [ {| role := py "user"; name := None; content := current |};
         {| role := py "user"; name := None;
            content := py "OBSERVATION: " ++ [newline] ++ obs |} ] in
  exists self',
    construct_thought table fuel trajectory intent_arg history self
    = Some (Ok (Messages (system ++ objective
                          ++ skipn (msg_start_idx self') transcript)), self') /\
    messages self' = transcript /\
    msg_start_idx self <= msg_start_idx self' <= length transcript.
Proof.
  intros Hinv Hcur Hfuel Hsys Hint Hturn Hfit transcript.
  rewrite (construct_thought_run table fuel trajectory intent_arg history self
             current obs Hturn Hfuel).
  cbv zeta. rewrite Hsys, Hint. cbn [api_add].
  destruct (add_message_preserves current (py "user") self Hinv Hcur) as [Hi1 Hc1].
  destruct (add_message_preserves (py "OBSERVATION: " ++ [newline] ++ obs) (py "user")
              _ Hi1 Hc1) as [Hi2 Hc2].
  set (appended := snd (add_message (py "OBSERVATION: " ++ [newline] ++ obs) (py "user")
                          (snd (add_message current (py "user") self)))) in *.
  assert (Hm : messages appended = transcript).
  { unfold transcript. change (messages appended)
      with ((messages self
             ++ [ {| role := py "user"; name := None; content := current |} ])
            ++ [ {| role := py "user"; name := None;
                    content := py "OBSERVATION: " ++ [newline] ++ obs |} ]).
    rewrite <- app_assoc. reflexivity. }
  destruct (truncation_returns_when_overhead_fits appended Hi2 Hc2 Hfit) as [k Hk].
  destruct (truncation_state appended Hi2 Hc2) as (r' & s & Hs & _ & _ & Hcs & _).
  rewrite Hk in Hs. injection Hs as <- <-. rewrite Hk.
  exists (after_drops appended k). split; [|split].
  - cbn [api_add]. rewrite <- Hm, <- app_assoc. reflexivity.
  - exact Hm.
  - rewrite <- Hm. exact Hcs.
Qed.

Lemma X20_construct_thought_returns_the_live_prompt_witness :
  let self := with_objective (py "Find the price.")
                (chat_react (py "You are an agent.") (chat_config 384 4096 0)) in
  let trajectory := [ {| observation_text := py "[1] link 'Home'";
                         page_url := py "http://localhost:7770/" |} ] in
  exists prompt self',
    construct_thought [] 3 trajectory (py "Find the price.") (Some [py "None"]) self
    = Some (Ok (Messages prompt), self') /\
    length (messages self') = 2.
Proof.
  cbv zeta.
  edestruct (X20_construct_thought_returns_the_live_prompt
               [] 3 [ {| observation_text := py "[1] link 'Home'";
                         page_url := py "http://localhost:7770/" |} ]
               (py "Find the price.") (Some [py "None"])
               (with_objective (py "Find the price.")
                  (chat_react (py "You are an agent.") (chat_config 384 4096 0))))
    as (self' & Hrun & Hm & _).
  - split; [reflexivity | vm_compute; reflexivity].
  - unfold cursor_ok. simpl. lia.
  - simpl. lia.
  - reflexivity.
  - reflexivity.
  - vm_compute. reflexivity.
  - vm_compute. discriminate.
  - do 2 eexists. split; [exact Hrun|]. rewrite Hm. reflexivity.
Defined.

(** X21.  The observation that a step appends is what the next
    [remove_obs] removes: if the cursor is still before the end after the
    step, [remove_obs] does not raise and leaves the old transcript followed
    by the turn alone, with the invariant intact. *)
Theorem X21_remove_obs_after_step_removes_the_observation
    (table : list (str * str)) (fuel : nat) (trajectory : list StateInfo)
    (intent_arg : str) (history : option (list str))
    (self self' : ReactPromptConstructor) (current obs : str)
    (r : res api_input) :
  transcript_inv self -> cursor_ok self ->
  length (messages_tokens_list self) + 3 <= fuel ->
  current_turn table self trajectory history = Ok (current, obs) ->
  construct_thought table fuel trajectory intent_arg history self = Some (r, self') ->
  msg_start_idx self' < length (messages self') ->
  fst (remove_obs self') = Ok PyNone /\
  messages (snd (remove_obs self'))
  = messages self ++ [ {| role := py "user"; name := None; content := current |} ] /\
  transcript_inv (snd (remove_obs self')) /\
  cursor_ok (snd (remove_obs self')).
Proof.
  intros Hinv Hcur Hfuel Hturn Hrun Hlt.
  destruct (construct_thought_appends table fuel trajectory intent_arg history
              self self' current obs r Hinv Hcur Hfuel Hturn Hrun)
    as (Hm & _ & Hinv' & _).
  destruct (remove_obs_preserves self' Hinv' Hlt) as [Hi Hc].
  rewrite (remove_obs_run self' _ _ Hm (proj1 Hinv')) in *.
  split; [reflexivity|]. split; [reflexivity|]. split; assumption.
Qed.

Lemma X21_remove_obs_after_step_removes_the_observation_witness :
  let self := with_objective (py "Find the price.")
                (chat_react (py "You are an agent.") (chat_config 384 4096 0)) in
  let trajectory := [ {| observation_text := py "[1] link 'Home'";
                         page_url := py "http://localhost:7770/" |} ] in
  match construct_thought [] 3 trajectory (py "Find the price.") (Some [py "None"]) self with
  | Some (_, self') => length (messages (snd (remove_obs self'))) = 1
  | None => False
  end.
Proof.
  cbv zeta.
  destruct (construct_thought [] 3
              [ {| observation_text := py "[1] link 'Home'";
                   page_url := py "http://localhost:7770/" |} ]
              (py "Find the price.") (Some [py "None"])
              (with_objective (py "Find the price.")
                 (chat_react (py "You are an agent.") (chat_config 384 4096 0))))
    as [[r self']|] eqn:Hrun; [|vm_compute in Hrun; discriminate].
  destruct (X21_remove_obs_after_step_removes_the_observation
              [] 3
              [ {| observation_text := py "[1] link 'Home'";
                   page_url := py "http://localhost:7770/" |} ]
              (py "Find the price.") (Some [py "None"])
              (with_objective (py "Find the price.")
                 (chat_react (py "You are an agent.") (chat_config 384 4096 0)))
              self'
              ([newline] ++ py "ERROR MESSAGE: None" ++ [newline]
               ++ py "URL: http://localhost:7770/" ++ [newline])
              (py "[1] link 'Home'") r) as (_ & Hm & _).
  - split; [reflexivity | vm_compute; reflexivity].
  - unfold cursor_ok. simpl. lia.
  - simpl. lia.
  - vm_compute. reflexivity.
  - exact Hrun.
  - vm_compute in Hrun. injection Hrun as _ <-. vm_compute. lia.
  - rewrite Hm. reflexivity.
Defined.

Lemma format_scan_brace_free_prefix (kwargs : list (str * str)) (pre s : str) :
  brace_free pre = true ->
  format_scan kwargs (pre ++ s) None
  = res_bind (format_scan kwargs s None) (fun r => Ok (pre ++ r)).
Proof.
  induction pre as [|c pre IH]; intros H.
  - cbn [app]. destruct (format_scan kwargs s None); reflexivity.
  - cbn [brace_free forallb] in H. apply andb_true_iff in H as [Hc H].
    apply andb_true_iff in Hc as [Hl Hr].
    apply negb_true_iff in Hl, Hr.
    cbn [app format_scan]. rewrite Hl, Hr, (IH H).
    destruct (format_scan kwargs s None); reflexivity.
Qed.

Lemma assert_keywords_pass (keywords : list str) (text : str) :
  str_in (py "{k}") text = false -> assert_keywords keywords text = Ok tt.
Proof.
  intros H. rewrite assert_keywords_spec, H. destruct keywords; reflexivity.
Qed.

(** X22.  The history-carrying constructor passes only [url] and
    [previous_action] to the template: a template whose first field is
    [{objective}] or [{observation}] makes every step raise KeyError, with
    nothing appended to the transcript. *)
Theorem X22_construct_thought_cannot_fill_objective
    (table : list (str * str)) (fuel : nat) (init : list StateInfo)
    (state_info : StateInfo) (intent_arg : str) (earlier : list str) (previous : str)
    (self : ReactPromptConstructor) (pre field post : str) :
  template (instruction (base self)) = pre ++ py "{" ++ field ++ py "}" ++ post ->
  brace_free pre = true ->
  field = py "objective" \/ field = py "observation" ->
  construct_thought table fuel (init ++ [state_info]) intent_arg
                    (Some (earlier ++ [previous])) self
  = Some (Raise KeyError, self).
Proof.
  intros Htemplate Hpre Hfield.
  unfold construct_thought, current_turn.
  rewrite last_opt_snoc. cbn [res_bind]. rewrite last_opt_snoc. cbn [res_bind].
  rewrite Htemplate.
  unfold str_format. rewrite (format_scan_brace_free_prefix _ pre _ Hpre).
  destruct Hfield as [-> | ->]; reflexivity.
Qed.

Lemma X22_construct_thought_cannot_fill_objective_witness :
  let b := {| instruction :=
                {| intro := py "You are an agent.";
                   examples := [];
                   template := py "OBJECTIVE: " ++ py "{" ++ py "objective" ++ py "}"
                               ++ py " URL: {url}";
                   meta_data := {| keywords := [py "url"; py "objective"];
                                   answer_phrase_md := py "Action: ";
                                   action_splitter := py "`" |} |};
              lm_config := chat_config 384 4096 0;
              tokenizer := char_tokenizer |} in
  let self := {| base := b; answer_phrase := py "Action: ";
                 sys_prompt := Messages [ {| role := py "system"; name := None;
                                             content := py "You are an agent." |} ];
                 sys_tokens := (inject_Z 17 / 4)%Q;
                 messages := []; messages_tokens_list := [];
                 messages_token_sum := 0;
                 intent := Text []; intent_tokens := 0;
                 msg_start_idx := 0 |} in
  react_init b = Ok self /\
  construct_thought [] 3
    ([] ++ [ {| observation_text := py "[1] link"; page_url := py "http://a/" |} ])
    (py "Find the price.") (Some ([] ++ [py "None"])) self
  = Some (Raise KeyError, self).
Proof.
  cbv zeta. split; [reflexivity|].
  apply (X22_construct_thought_cannot_fill_objective
           [] 3 [] _ (py "Find the price.") [] (py "None") _
           (py "OBJECTIVE: ") (py "objective") (py " URL: {url}"));
    [reflexivity | reflexivity | left; reflexivity].
Defined.

(** X23.  On the shipped template a step formats the turn without
    failure, with the mapped error text and the mapped URL inserted as they
    are: a previous action that reports no error appears as [None].  The
    turn and the observation are returned unless one of them holds the
    characters [{k}]. *)
Theorem X23_shipped_template_turn
    (table : list (str * str)) (init : list StateInfo) (state_info : StateInfo)
    (earlier : list str) (previous : str) (self : ReactPromptConstructor) :
  template (instruction (base self)) = template (react_prompt [] []) ->
  max_obs_length (gen self) = 0 ->
  let current :=
    [newline] ++ py "ERROR MESSAGE: " ++
    map_url_to_real table (error_message previous) ++ [newline] ++
    py "URL: " ++ map_url_to_real table (page_url state_info) ++ [newline] in
  str_in (py "{k}") (observation_text state_info) = false ->
  str_in (py "{k}") current = false ->
  current_turn table self (init ++ [state_info]) (Some (earlier ++ [previous]))
  = Ok (current, observation_text state_info).
Proof.
  intros Htemplate Hmax current Hobs Hcur.
  unfold current_turn. rewrite last_opt_snoc. cbn [res_bind].
  rewrite last_opt_snoc. cbn [res_bind]. rewrite Htemplate, Hmax.
  fold (error_message previous).
  change (str_format (template (react_prompt [] []))
            [ (py "url", map_url_to_real table (page_url state_info));
              (py "previous_action", map_url_to_real table (error_message previous)) ])
    with (Ok current).
  cbn [res_bind].
  rewrite (assert_keywords_pass _ _ Hobs), (assert_keywords_pass _ _ Hcur).
  reflexivity.
Qed.

Lemma X23_shipped_template_turn_witness :
  let table := [ (py "http://localhost:7770", py "http://onestopmarket.com") ] in
  let state_info := {| observation_text := py "[1] link 'Home'";
                       page_url := py "http://localhost:7770/fax" |} in
  current_turn table
    (chat_react (py "You are an agent.") (chat_config 384 4096 0))
    ([] ++ [state_info]) (Some ([] ++ [py "click [1]"]))
  = Ok ([newline] ++ py "ERROR MESSAGE: " ++
        map_url_to_real table (error_message (py "click [1]")) ++ [newline] ++
        py "URL: " ++ map_url_to_real table (page_url state_info) ++ [newline],
        observation_text state_info).
Proof.
  cbv zeta.
  exact (X23_shipped_template_turn
           [ (py "http://localhost:7770", py "http://onestopmarket.com") ]
           [] {| observation_text := py "[1] link 'Home'";
                 page_url := py "http://localhost:7770/fax" |}
           [] (py "click [1]")
           (chat_react (py "You are an agent.") (chat_config 384 4096 0))
           eq_refl eq_refl
           ltac:(vm_compute; reflexivity) ltac:(vm_compute; reflexivity)).
Defined.

(* ================================================================== *)
(** * Further properties: the single-shot constructors *)
(* ================================================================== *)


(** X25.  The history-carrying constructor splits the chat prompt of the
    base class in two: the system prompt that [__init__] builds once,
    followed by the per-turn payload of its own [get_lm_api_input], is the
    prompt the base class builds for the same turn. *)
Theorem X25_system_prompt_and_turn_make_the_base_prompt
    (b : PromptConstructor) (self : ReactPromptConstructor)
    (intro_arg : str) (examples_arg : list (str * str)) (current : str) :
  react_init b = Ok self ->
  res_bind (get_lm_api_input self intro_arg examples_arg current)
           (fun turn => api_add (sys_prompt self) turn)
  = Base.get_lm_api_input b (intro (instruction b)) (examples (instruction b)) current.
Proof.
  unfold react_init, get_lm_api_initialize, get_lm_api_input, Base.get_lm_api_input.
  destruct (str_in (py "openai") (provider (lm_config b))) eqn:Hp; [|discriminate].
  destruct (str_eqb (mode (lm_config b)) (py "chat")) eqn:Hchat.
  - cbn [res_bind count_sys_tokens]. intros [= <-].
    cbn [base sys_prompt]. rewrite Hp, Hchat. reflexivity.
  - destruct (str_eqb (mode (lm_config b)) (py "completion")); [|discriminate].
    cbn -[example_text py]. destruct (intro (instruction b)); discriminate.
Qed.

Lemma X25_system_prompt_and_turn_make_the_base_prompt_witness :
  let cfg := chat_config 384 4096 0 in
  let b := {| instruction := react_prompt (py "You are an agent.") [];
              lm_config := cfg; tokenizer := char_tokenizer |} in
  let self := chat_react (py "You are an agent.") cfg in
  res_bind (get_lm_api_input self [] [] (py "URL: http://a/"))
           (fun turn => api_add (sys_prompt self) turn)
  = Base.get_lm_api_input b (intro (instruction b)) (examples (instruction b))
      (py "URL: http://a/").
Proof.
  cbv zeta.
  exact (X25_system_prompt_and_turn_make_the_base_prompt
           {| instruction := react_prompt (py "You are an agent.") [];
              lm_config := chat_config 384 4096 0; tokenizer := char_tokenizer |}
           (chat_react (py "You are an agent.") (chat_config 384 4096 0))
           [] [] (py "URL: http://a/") eq_refl).
Defined.

(** X26.  The two single-shot constructors build the same prompt on every
    input.  Both raise IndexError on an empty trajectory, KeyError when the
    meta-data has no [action_history], and IndexError when the action
    history is empty. *)
Theorem X26_single_shot_constructors_agree
    (table : list (str * str)) (self : PromptConstructor) (intent : str) :
  (forall trajectory history,
      Direct.construct table self trajectory intent history
      = CoT.construct table self trajectory intent history) /\
  (forall history,
      Direct.construct table self [] intent history = Raise IndexError) /\
  (forall init state_info,
      Direct.construct table self (init ++ [state_info]) intent None
      = Raise KeyError) /\
  (forall init state_info,
      Direct.construct table self (init ++ [state_info]) intent (Some [])
      = Raise IndexError).
Proof.
  split; [|split; [|split]].
  - reflexivity.
  - reflexivity.
  - intros init state_info. unfold Direct.construct.
    rewrite last_opt_snoc. reflexivity.
  - intros init state_info. unfold Direct.construct.
    rewrite last_opt_snoc. reflexivity.
Qed.

Lemma format_scan_brace_free (kwargs : list (str * str)) (s : str) :
  brace_free s = true -> format_scan kwargs s None = Ok s.
Proof.
  intros H. rewrite <- (app_nil_r s) at 1.
  rewrite (format_scan_brace_free_prefix kwargs s [] H).
  cbn [format_scan res_bind]. rewrite app_nil_r. reflexivity.
Qed.

(** X27.  The single-shot constructor fills [{objective}]: on a template
    that is brace-free around this one field, the current turn is the
    template with the objective put in as it is, braces included, and the
    prompt is the base prompt for this turn - unless the turn holds the
    characters [{k}], which the keyword assertion rejects. *)
Theorem X27_direct_construct_fills_the_objective
    (table : list (str * str)) (self : PromptConstructor)
    (init : list StateInfo) (state_info : StateInfo) (intent : str)
    (earlier : list str) (previous : str) (pre post : str) :
  template (instruction self) = pre ++ py "{objective}" ++ post ->
  brace_free pre = true -> brace_free post = true ->
  Direct.construct table self (init ++ [state_info]) intent
                   (Some (earlier ++ [previous]))
  = if match keywords (meta_data (instruction self)) with
       | [] => false
       | _ :: _ => str_in (py "{k}") (pre ++ intent ++ post)
       end
    then Raise AssertionError
    else Base.get_lm_api_input self (intro (instruction self))
           (examples (instruction self)) (pre ++ intent ++ post).
Proof.
  intros Htemplate Hpre Hpost. unfold Direct.construct.
  rewrite last_opt_snoc. cbn [res_bind]. rewrite last_opt_snoc. cbn [res_bind].
  rewrite Htemplate. unfold str_format.
  rewrite (format_scan_brace_free_prefix _ pre _ Hpre).
  match goal with
  | |- context [format_scan ?kw (py "{objective}" ++ post) None] =>
      change (format_scan kw (py "{objective}" ++ post) None)
        with (res_bind (format_scan kw post None) (fun r => Ok (intent ++ r)));
      rewrite (format_scan_brace_free kw post Hpost)
  end.
  cbn [res_bind]. rewrite assert_keywords_spec.
  destruct (keywords (meta_data (instruction self))); [reflexivity|].
  destruct (str_in (py "{k}") (pre ++ intent ++ post)); reflexivity.
Qed.

Lemma X27_direct_construct_fills_the_objective_witness :
  let b := {| instruction :=
                {| intro := py "You are an agent.";
                   examples := [];
                   template := py "OBJECTIVE: " ++ py "{objective}" ++ py " END";
                   meta_data := {| keywords := [py "objective"];
                                   answer_phrase_md := py "Action: ";
                                   action_splitter := py "`" |} |};
              lm_config := chat_config 384 4096 0;
              tokenizer := char_tokenizer |} in
  Direct.construct [] b
    ([] ++ [ {| observation_text := py "[1] link"; page_url := py "http://a/" |} ])
    (py "Find {url}") (Some ([] ++ [py "None"]))
  = Ok (Messages [ {| role := py "system"; name := None;
                     content := py "You are an agent." |};
                   {| role := py "user"; name := None;
                     content := py "OBJECTIVE: Find {url} END" |} ]).
Proof.
  cbv zeta.
  match goal with
  | |- Direct.construct _ ?b (_ ++ [?si]) _ _ = _ =>
      rewrite (X27_direct_construct_fills_the_objective
                 [] b [] si (py "Find {url}") [] (py "None")
                 (py "OBJECTIVE: ") (py " END") eq_refl eq_refl eq_refl)
  end.
  vm_compute. reflexivity.
Defined.
